(** * Toshiba Estia control: state codec, state merger, device and manager

    A shallow embedding of [toshiba_estia/device/fcu_state.py],
    [toshiba_estia/device/__init__.py], [toshiba_estia/device_manager.py]
    and [toshiba_ac/device/properties.py], with the properties of the
    state synchronisation core stated over it.

    Conventions.  A Python [str] is a [string] (characters are code points
    below 256).  A Python [int] is a [Z].  A call that may raise returns a
    [result]; a method that mutates [self] returns the new object next to
    its result, also when it raises.  Notifications and log records are
    appended to an event trace. *)

From Stdlib Require Import ZArith QArith Ascii String List Lia.
From stdpp Require Import base option list strings gmap.

Local Open Scope string_scope.
Local Open Scope Z_scope.

(** ** Exceptions and results *)

Inductive exn : Type :=
  | ValueError
  | StructError
  | IndexError
  | KeyError
  | TypeError
  | AttributeError
  | ToshibaAcDeviceManagerError
  | ConnectionError.

Inductive result (A : Type) : Type :=
  | Ok (a : A)
  | Raise (e : exn).
Arguments Ok {A} a.
Arguments Raise {A} e.

Definition rbind {A B} (r : result A) (k : A -> result B) : result B :=
  match r with
  | Ok a => k a
  | Raise e => Raise e
  end.

Definition is_ok {A} (r : result A) : bool :=
  match r with Ok _ => true | Raise _ => false end.

(** ** The Python builtins the sources call *)

Module Py.

Definition ord (c : ascii) : Z := Z.of_N (N_of_ascii c).
Definition chr (z : Z) : ascii := ascii_of_N (Z.to_N z).

(** [str.lower] on one character: [A]-[Z] and the Latin-1 capitals. *)
Definition lower_char (c : ascii) : ascii :=
  let n := ord c in
  if ((65 <=? n) && (n <=? 90))
     || ((192 <=? n) && (n <=? 222) && negb (n =? 215))
  then chr (n + 32) else c.

Fixpoint lower (s : string) : string :=
  match s with
  | EmptyString => EmptyString
  | String c r => String (lower_char c) (lower r)
  end.

(** [[s[i:i+2] for i in range(0, len(s), 2)]] *)
Fixpoint chunks2 (s : string) : list string :=
  match s with
  | EmptyString => []
  | String a EmptyString => [String a EmptyString]
  | String a (String b r) => String a (String b EmptyString) :: chunks2 r
  end.

(** [''.join(l)] *)
Fixpoint join (l : list string) : string :=
  match l with
  | [] => EmptyString
  | x :: r => String.append x (join r)
  end.

(** [enumerate(l)], counting from [i]. *)
Fixpoint enumerate_from {A} (i : nat) (l : list A) : list (nat * A) :=
  match l with
  | [] => []
  | x :: r => (i, x) :: enumerate_from (S i) r
  end.
Definition enumerate {A} (l : list A) : list (nat * A) := enumerate_from 0 l.

(** The value of a hexadecimal digit. *)
Definition digit_value (c : ascii) : option Z :=
  let n := ord c in
  if (48 <=? n) && (n <=? 57) then Some (n - 48)
  else if (97 <=? n) && (n <=? 102) then Some (n - 87)
  else if (65 <=? n) && (n <=? 70) then Some (n - 55)
  else None.

(** ASCII white space: space, tab, line feed, vertical tab, form feed,
    carriage return. *)
Definition isspace (c : ascii) : bool :=
  let n := ord c in ((9 <=? n) && (n <=? 13)) || (n =? 32).

(** [bytes.fromhex(s)]: two hexadecimal digits per byte, white space
    allowed between bytes; [None] stands for ValueError. *)
Fixpoint fromhex (s : string) : option (list Z) :=
  match s with
  | EmptyString => Some []
  | String c r =>
      if isspace c then fromhex r
      else
        match digit_value c, r with
        | Some top, String d r' =>
            match digit_value d with
            | Some bot => cons (top * 16 + bot) <$> fromhex r'
            | None => None
            end
        | _, _ => None
        end
  end.

Definition is_hex_digit (c : ascii) : bool :=
  match digit_value c with Some _ => true | None => false end.

Fixpoint all_hex (s : string) : bool :=
  match s with
  | EmptyString => true
  | String c r => is_hex_digit c && all_hex r
  end.

(** White space as [int(str, base)] skips it: the ASCII one and the two
    Latin-1 spaces, next line and no-break space. *)
Definition int_isspace (c : ascii) : bool :=
  let n := ord c in isspace c || (n =? 133) || (n =? 160).

Fixpoint lstrip (s : string) : string :=
  match s with
  | EmptyString => EmptyString
  | String c r => if int_isspace c then lstrip r else s
  end.

Fixpoint all_space (s : string) : bool :=
  match s with
  | EmptyString => true
  | String c r => int_isspace c && all_space r
  end.

(** The digits of a base sixteen literal: single underscores between
    digits, at least one digit, white space only after the last one.
    [seen] tells that a digit was read, [prev_us] that the previous
    character was an underscore. *)
Fixpoint int_digits (s : string) (acc : Z) (seen prev_us : bool) : option Z :=
  match s with
  | EmptyString => if seen && negb prev_us then Some acc else None
  | String c r =>
      if Ascii.eqb c "_" then
        if prev_us || negb seen then None else int_digits r acc seen true
      else
        match digit_value c with
        | Some d => int_digits r (acc * 16 + d) true false
        | None =>
            if seen && negb prev_us && all_space s then Some acc else None
        end
  end.

(** [int(s, 16)] on a [str]; [None] stands for ValueError. *)
Definition int_base16 (s : string) : option Z :=
  let s1 := lstrip s in
  let '(sign, s2) :=
    match s1 with
    | String "+" r => (1, r)
    | String "-" r => (-1, r)
    | _ => (1, s1)
    end in
  let s3 :=
    match s2 with
    | String "0" (String x r) =>
        if Ascii.eqb x "x" || Ascii.eqb x "X" then
          match r with
          | String "_" r' => r'
          | _ => r
          end
        else s2
    | _ => s2
    end in
  match s3 with
  | String "_" _ => None
  | _ => Z.mul sign <$> int_digits s3 0 false false
  end.

End Py.

(** ** [properties.py]: the enumerations and the energy reading *)

Module properties.

Module ToshibaAcStatus.
Inductive t : Type := ON | OFF | NONE.
End ToshibaAcStatus.

Module EstiaCompressorStatus.
Inductive t : Type := OFF | DHW | HEAT | NONE.
End EstiaCompressorStatus.

Module EstiaWaterMode.
Inductive t : Type := AUTO | COOL | HEAT | NONE.
End EstiaWaterMode.

Module ToshibaAcMode.
Inductive t : Type := AUTO | COOL | HEAT | NONE.
End ToshibaAcMode.

(** The dataclass [ToshibaAcDeviceEnergyConsumption]; [since] is the
    start of the measurement window as a timestamp. *)
Record ToshibaAcDeviceEnergyConsumption : Type :=
  { energy_wh : Q; since : Z }.

(** The [__eq__] a dataclass generates: field by field, with the
    numeric equality of [energy_wh]. *)
Definition consumption_eq (a b : ToshibaAcDeviceEnergyConsumption) : bool :=
  Qeq_bool (energy_wh a) (energy_wh b) && (since a =? since b).

End properties.

(** ** [fcu_state.py] *)

Module ToshibaAcFcuState.

Definition NONE_VAL : Z := 255.
Definition NONE_VAL_HALF : Z := 15.
Definition NONE_VAL_SIGNED : Z := -1.

(** [d[raw]] on a dict display: KeyError when the key is absent. *)
Definition getitem {V} (d : gmap Z V) (raw : Z) : result V :=
  match d !! raw with
  | Some v => Ok v
  | None => Raise KeyError
  end.

Module AcTemperature.
Definition from_raw (raw : Z) : Q := Qmake (raw - 32) 2.
End AcTemperature.

Module EstiaTemperature.
Definition from_raw (raw : Z) : option Q :=
  if raw =? 0 then None else Some (Qmake (raw - 48) 2).
End EstiaTemperature.

Module EstiaWaterMode.
Definition table : gmap Z properties.EstiaWaterMode.t :=
  <[ 5 := properties.EstiaWaterMode.COOL ]>
  (<[ 6 := properties.EstiaWaterMode.HEAT ]>
  (<[ 0 := properties.EstiaWaterMode.NONE ]> ∅)).
Definition from_raw (raw : Z) : result properties.EstiaWaterMode.t :=
  getitem table raw.
End EstiaWaterMode.

Module AcStatus.
Definition table : gmap Z properties.ToshibaAcStatus.t :=
  <[ 48 := properties.ToshibaAcStatus.ON ]>
  (<[ 49 := properties.ToshibaAcStatus.OFF ]>
  (<[ 2 := properties.ToshibaAcStatus.NONE ]>
  (<[ NONE_VAL := properties.ToshibaAcStatus.NONE ]> ∅))).
Definition from_raw (raw : Z) : result properties.ToshibaAcStatus.t :=
  getitem table raw.
Definition to_raw (status : properties.ToshibaAcStatus.t) : Z :=
  match status with
  | properties.ToshibaAcStatus.ON => 48
  | properties.ToshibaAcStatus.OFF => 49
  | properties.ToshibaAcStatus.NONE => NONE_VAL
  end.
End AcStatus.

Module AcMode.
Definition table : gmap Z properties.ToshibaAcMode.t :=
  <[ 65 := properties.ToshibaAcMode.AUTO ]>
  (<[ 66 := properties.ToshibaAcMode.COOL ]>
  (<[ 67 := properties.ToshibaAcMode.HEAT ]>
  (<[ 0 := properties.ToshibaAcMode.NONE ]>
  (<[ NONE_VAL := properties.ToshibaAcMode.NONE ]> ∅)))).
Definition from_raw (raw : Z) : result properties.ToshibaAcMode.t :=
  getitem table raw.
Definition to_raw (mode : properties.ToshibaAcMode.t) : Z :=
  match mode with
  | properties.ToshibaAcMode.AUTO => 65
  | properties.ToshibaAcMode.COOL => 66
  | properties.ToshibaAcMode.HEAT => 67
  | properties.ToshibaAcMode.NONE => NONE_VAL
  end.
End AcMode.

(** The attributes of a state object.  [_ac_outdoor_temperature] is
    not set by [__init__]: it is absent until the first successful
    [decode]. *)
Record t : Type := mk
  { _ac_status : Z;
    _ac_mode : Z;
    _ac_temperature : Z;
    _status_string : string;
    _dhw_is_enabled : Z;
    _dhw_target_temperature : Z;
    _new_outdoor_unit_dhw : Z;
    _new_heating_coil_dhw : Z;
    _new_heating_active : Z;
    _water_operation_mode : Z;
    _zone1_target_temperature : Z;
    _outdoor_unit_heat : Z;
    _heating_coil_heat : Z;
    _water_pump_status : Z;
    _ac_outdoor_temperature : option Z }.

(** [__init__] *)
Definition init : t :=
  {| _ac_status := NONE_VAL;
     _ac_mode := NONE_VAL;
     _ac_temperature := NONE_VAL_SIGNED;
     _status_string := "";
     _dhw_is_enabled := 0;
     _dhw_target_temperature := 0;
     _new_outdoor_unit_dhw := 0;
     _new_heating_coil_dhw := 0;
     _new_heating_active := 0;
     _water_operation_mode := 0;
     _zone1_target_temperature := 0;
     _outdoor_unit_heat := 0;
     _heating_coil_heat := 0;
     _water_pump_status := 0;
     _ac_outdoor_temperature := None |}.

(** [self._status_string = hex_state] *)
Definition set_status_string (self : t) (hex_state : string) : t :=
  mk (_ac_status self) (_ac_mode self) (_ac_temperature self) hex_state
     (_dhw_is_enabled self) (_dhw_target_temperature self)
     (_new_outdoor_unit_dhw self) (_new_heating_coil_dhw self)
     (_new_heating_active self) (_water_operation_mode self)
     (_zone1_target_temperature self) (_outdoor_unit_heat self)
     (_heating_coil_heat self) (_water_pump_status self)
     (_ac_outdoor_temperature self).

(** [ENCODING_STRUCT.unpack]: thirty-six unsigned bytes, struct.error
    on any other length. *)
Definition unpack (b : list Z) : option (list Z) :=
  if Nat.eqb (length b) 36 then Some b else None.

(** [encode] *)
Definition encode (self : t) : string := "".

(** [decode]: the raw string is stored first, then the bytes are
    unpacked and the eleven decoded attributes assigned together. *)
Definition decode (self : t) (hex_state : string) : result unit * t :=
  let self := set_status_string self hex_state in
  match Py.fromhex hex_state with
  | None => (Raise ValueError, self)
  | Some b =>
      match unpack b with
      | None => (Raise StructError, self)
      | Some data =>
          match data with
          | b1 :: b2 :: b3 :: b4 :: b5 :: b6 :: b7 :: _ :: b9 :: b10
            :: b11 :: _ :: _ :: _ :: _ :: _ :: _ :: _ :: _ :: b20 :: _ =>
              (Ok tt,
               mk (_ac_status self) (_ac_mode self) (_ac_temperature self)
                  (_status_string self)
                  b1 b2 b3 b4 b5 b6 b7 b9 b10 b20 (Some b11))
          | _ => (Raise ValueError, self)
          end
      end
  end.

(** [from_hex_state] *)
Definition from_hex_state (hex_state : string) : result t :=
  match decode init hex_state with
  | (Ok _, state) => Ok state
  | (Raise e, _) => Raise e
  end.

(** One turn of the loop of [merge]. *)
Definition merge_step (state_bytes : list string)
    (acc : result (list string)) (ib : nat * string) : result (list string) :=
  rbind acc (fun merged_bytes =>
    let '(i, input_byte) := ib in
    if String.eqb (Py.lower input_byte) "ff" then
      match state_bytes !! i with
      | Some b => Ok (merged_bytes ++ [b])%list
      | None => Raise IndexError
      end
    else Ok (merged_bytes ++ [input_byte])%list).

(** [merge]; it reads nothing of [self]. *)
Definition merge (input_string state : string) : result string :=
  let input_bytes := Py.chunks2 input_string in
  let state_bytes := Py.chunks2 state in
  rbind (foldl (merge_step state_bytes) (Ok []) (Py.enumerate input_bytes))
        (fun merged_bytes => Ok (Py.join merged_bytes)).

(** [update] *)
Definition update (self : t) (status_diff : string) : result bool * t :=
  let old_status_string := _status_string self in
  match merge status_diff old_status_string with
  | Raise e => (Raise e, self)
  | Ok state_update =>
      match decode self state_update with
      | (Ok _, self') => (Ok true, self')
      | (Raise e, self') => (Raise e, self')
      end
  end.

(** The properties. *)
Definition ac_status (self : t) : result properties.ToshibaAcStatus.t :=
  AcStatus.from_raw (_ac_status self).

Definition ac_mode (self : t) : result properties.ToshibaAcMode.t :=
  AcMode.from_raw (_ac_mode self).

Definition ac_temperature (self : t) : Q :=
  AcTemperature.from_raw (_ac_temperature self).

Definition ac_outdoor_temperature (self : t) : result Q :=
  match _ac_outdoor_temperature self with
  | Some raw => Ok (AcTemperature.from_raw raw)
  | None => Raise AttributeError
  end.

Definition dhw_target_temperature (self : t) : Q :=
  AcTemperature.from_raw (_dhw_target_temperature self).

Definition zone1_target_temperature (self : t) : Q :=
  AcTemperature.from_raw (_zone1_target_temperature self).

(** Truth of an [int] in a condition. *)
Definition truthy (z : Z) : bool := negb (z =? 0).

Definition compressor_status (self : t) : properties.EstiaCompressorStatus.t :=
  if truthy (_new_outdoor_unit_dhw self) then properties.EstiaCompressorStatus.DHW
  else if truthy (_outdoor_unit_heat self) then properties.EstiaCompressorStatus.HEAT
  else properties.EstiaCompressorStatus.OFF.

Definition zone1_mode (self : t) : result properties.EstiaWaterMode.t :=
  EstiaWaterMode.from_raw (_water_operation_mode self).

Definition water_pump_is_running (self : t) : Z := _water_pump_status self.
Definition electric_coil_dhw_is_active (self : t) : Z := _new_heating_coil_dhw self.
Definition electric_coil_heat_is_active (self : t) : Z := _heating_coil_heat self.

End ToshibaAcFcuState.


(** ** Events and the monad of the handlers

    What a handler does to the outside is recorded as a trace: error
    records of the logger, notifications to the subscribers, requests on
    the two transports, tasks created and cancelled. *)

Inductive Task : Type :=
  | PeriodicStateReload
  | PeriodicFetchEnergyConsumption
  | PeriodicFetchDeviceConnection.

Inductive event : Type :=
  | LogError (msg : string)
  | StateChanged (ac_unique_id : string)
  | EnergyChanged (ac_unique_id : string)
  | HttpConnect
  | HttpRegisterClient (device_id : string)
  | HttpGetDevices
  | HttpGetDeviceAdditionalInfo (ac_unique_id : string)
  | HttpGetDevicesEnergyConsumption (ids : list string)
  | HttpShutdown
  | AmqpConnect
  | AmqpShutdown
  | TaskCreated (task : Task)
  | TaskCancelled (task : Task).

(** A computation on an object of type [S]: a result or an exception,
    the object as it is left, and the events in order. *)
Definition M (S A : Type) : Type := S -> result A * S * list event.

Definition ret {S A} (a : A) : M S A := fun s => (Ok a, s, []).

Definition raise {S A} (e : exn) : M S A := fun s => (Raise e, s, []).

Definition bind {S A B} (c : M S A) (k : A -> M S B) : M S B :=
  fun s =>
    match c s with
    | (Ok a, s', tr) =>
        match k a s' with
        | (r, s'', tr') => (r, s'', (tr ++ tr')%list)
        end
    | (Raise e, s', tr) => (Raise e, s', tr)
    end.

Definition emit {S} (ev : event) : M S unit := fun s => (Ok tt, s, [ev]).
Definition get {S} : M S S := fun s => (Ok s, s, []).
Definition modify {S} (f : S -> S) : M S unit := fun s => (Ok tt, f s, []).
Definition lift {S A} (r : result A) : M S A := fun s => (r, s, []).

(** Modelled from the spec: a call of a notification hub ([utils] is not
    part of the sources).  The subscribers are run, which is the event,
    and what they raise, if anything, reaches the caller; [outcome] is
    what the subscribers do on this call. *)
Definition notify {S} (ev : event) (outcome : result unit) : M S unit :=
  fun s => (outcome, s, [ev]).

(** [try: c except Exception as e: h e] *)
Definition try_except {S A} (c : M S A) (h : exn -> M S A) : M S A :=
  fun s =>
    match c s with
    | (Ok a, s', tr) => (Ok a, s', tr)
    | (Raise e, s', tr) =>
        match h e s' with
        | (r, s'', tr') => (r, s'', (tr ++ tr')%list)
        end
    end.

(** [try: c finally: f] *)
Definition try_finally {S A} (c : M S A) (f : M S unit) : M S A :=
  fun s =>
    match c s with
    | (r, s', tr) =>
        match f s' with
        | (Ok _, s'', tr') => (r, s'', (tr ++ tr')%list)
        | (Raise e, s'', tr') => (Raise e, s'', (tr ++ tr')%list)
        end
    end.

Declare Scope m_scope.
Delimit Scope m_scope with M.
Notation "x <- c ;; k" := (bind c (fun x => k))
  (at level 62, c at next level, right associativity) : m_scope.
Notation "c ;;; k" := (bind c (fun _ => k))
  (at level 62, right associativity) : m_scope.

(** ** [device/__init__.py] *)

(** The values a payload holds; [JOther] stands for floats, arrays and
    objects, on which the handlers behave as on any value that is not a
    string. *)
Inductive JSONSerializable : Type :=
  | JNull
  | JBool (b : bool)
  | JInt (z : Z)
  | JStr (s : string)
  | JOther.

(** [payload[key]] *)
Definition payload_item (payload : gmap string JSONSerializable) (key : string)
    : result JSONSerializable :=
  match payload !! key with
  | Some v => Ok v
  | None => Raise KeyError
  end.

(** [int(v, 16)]: TypeError on a value that is not a string. *)
Definition int16 (v : JSONSerializable) : result Z :=
  match v with
  | JStr s =>
      match Py.int_base16 s with
      | Some z => Ok z
      | None => Raise ValueError
      end
  | _ => Raise TypeError
  end.

Module ToshibaAcDevice.

(** Modelled from the spec: the [temperatures] object of the additional
    device information ([utils/http_api.py] is not part of the sources);
    the attributes are those the device reads and writes. *)
Record Temperatures : Type := mkTemperatures
  { tfi : Z; tho : Z; to : Z; twi : Z; two : Z; room_water : Z }.

(** Modelled from the spec: what [get_device_additional_info] returns
    ([utils/http_api.py] is not part of the sources). *)
Record AdditionalInfo : Type := mkAdditionalInfo
  { info_cdu : option string;
    info_fcu : option string;
    info_serial_number : option string;
    info_temperatures : option Temperatures }.

(** The attributes of a device.  [temperatures] is absent until
    [load_additional_device_info] has run. *)
Record t : Type := mk
  { name : string;
    device_id : string;
    ac_id : string;
    ac_unique_id : string;
    firmware_version : string;
    fcu_state : ToshibaAcFcuState.t;
    cdu : option string;
    fcu : option string;
    serial_number : option string;
    temperatures : option Temperatures;
    _water_flow_rate : Z;
    _ac_energy_consumption : option properties.ToshibaAcDeviceEnergyConsumption;
    periodic_reload_state_task : option Task }.

Definition STATE_RELOAD_PERIOD_MINUTES : Z := 30.

(** [__init__]; it raises what decoding the initial state raises. *)
Definition init (name device_id ac_id ac_unique_id initial_ac_state
    firmware_version merit_feature ac_model_id : string) : result t :=
  rbind (ToshibaAcFcuState.from_hex_state initial_ac_state) (fun st =>
    Ok (mk name device_id ac_id ac_unique_id firmware_version st
           None None None None 0 None None)).

Definition set_fcu_state (st : ToshibaAcFcuState.t) (self : t) : t :=
  mk (name self) (device_id self) (ac_id self) (ac_unique_id self)
     (firmware_version self) st (cdu self) (fcu self) (serial_number self)
     (temperatures self) (_water_flow_rate self)
     (_ac_energy_consumption self) (periodic_reload_state_task self).

Definition set_additional_info (i : AdditionalInfo) (self : t) : t :=
  mk (name self) (device_id self) (ac_id self) (ac_unique_id self)
     (firmware_version self) (fcu_state self)
     (info_cdu i) (info_fcu i) (info_serial_number i) (info_temperatures i)
     (_water_flow_rate self)
     (_ac_energy_consumption self) (periodic_reload_state_task self).

Definition set_temperatures (ts : Temperatures) (self : t) : t :=
  mk (name self) (device_id self) (ac_id self) (ac_unique_id self)
     (firmware_version self) (fcu_state self) (cdu self) (fcu self)
     (serial_number self) (Some ts) (_water_flow_rate self)
     (_ac_energy_consumption self) (periodic_reload_state_task self).

Definition set_water_flow_rate (z : Z) (self : t) : t :=
  mk (name self) (device_id self) (ac_id self) (ac_unique_id self)
     (firmware_version self) (fcu_state self) (cdu self) (fcu self)
     (serial_number self) (temperatures self) z
     (_ac_energy_consumption self) (periodic_reload_state_task self).

Definition set_ac_energy_consumption
    (c : properties.ToshibaAcDeviceEnergyConsumption) (self : t) : t :=
  mk (name self) (device_id self) (ac_id self) (ac_unique_id self)
     (firmware_version self) (fcu_state self) (cdu self) (fcu self)
     (serial_number self) (temperatures self) (_water_flow_rate self)
     (Some c) (periodic_reload_state_task self).

Definition set_periodic_reload_state_task (k : option Task) (self : t) : t :=
  mk (name self) (device_id self) (ac_id self) (ac_unique_id self)
     (firmware_version self) (fcu_state self) (cdu self) (fcu self)
     (serial_number self) (temperatures self) (_water_flow_rate self)
     (_ac_energy_consumption self) k.

Local Open Scope m_scope.

(** [state_changed]: the subscribers of state-changed are called with
    the device; [notified] is what they do. *)
Definition state_changed (notified : result unit) : M t unit :=
  self <- get ;; notify (StateChanged (ac_unique_id self)) notified.

(** [load_additional_device_info], with the answer of the request and
    what the subscribers of state-changed do. *)
Definition load_additional_device_info (answer : result AdditionalInfo)
    (notified : result unit) : M t unit :=
  self <- get ;;
  emit (HttpGetDeviceAdditionalInfo (ac_unique_id self)) ;;;
  additional_info <- lift answer ;;
  modify (set_additional_info additional_info) ;;;
  notify (StateChanged (ac_unique_id self)) notified.

(** [connect] *)
Definition connect (answer : result AdditionalInfo) (notified : result unit)
    : M t unit :=
  load_additional_device_info answer notified ;;;
  emit (TaskCreated PeriodicStateReload) ;;;
  modify (set_periodic_reload_state_task (Some PeriodicStateReload)).

(** [self.fcu_state.update(data)] on the state the device owns. *)
Definition fcu_state_update (data : string) : M t bool :=
  fun self =>
    match ToshibaAcFcuState.update (fcu_state self) data with
    | (r, st) => (r, set_fcu_state st self, [])
    end.


(** [handle_cmd_hcu_from_estia] *)
Definition handle_cmd_hcu_from_estia (payload : gmap string JSONSerializable)
    (notified : result unit) : M t unit :=
  data <- lift (payload_item payload "data") ;;
  match data with
  | JStr hex =>
      changed <- fcu_state_update hex ;;
      if changed : bool then state_changed notified else ret tt
  | _ => emit (LogError "malformed AC state from AMQP")
  end.

(** [self.temperatures.<attr> = v]: AttributeError when the device has
    no [temperatures]. *)
Definition store_temperature (upd : Z -> Temperatures -> Temperatures)
    (v : Z) : M t unit :=
  self <- get ;;
  match temperatures self with
  | Some ts => modify (set_temperatures (upd v ts))
  | None => raise AttributeError
  end.

Definition with_tfi (v : Z) (ts : Temperatures) : Temperatures :=
  mkTemperatures v (tho ts) (to ts) (twi ts) (two ts) (room_water ts).
Definition with_tho (v : Z) (ts : Temperatures) : Temperatures :=
  mkTemperatures (tfi ts) v (to ts) (twi ts) (two ts) (room_water ts).
Definition with_to (v : Z) (ts : Temperatures) : Temperatures :=
  mkTemperatures (tfi ts) (tho ts) v (twi ts) (two ts) (room_water ts).
Definition with_twi (v : Z) (ts : Temperatures) : Temperatures :=
  mkTemperatures (tfi ts) (tho ts) (to ts) v (two ts) (room_water ts).
Definition with_two (v : Z) (ts : Temperatures) : Temperatures :=
  mkTemperatures (tfi ts) (tho ts) (to ts) (twi ts) v (room_water ts).

(** [int(payload[key], 16)] *)
Definition reading (payload : gmap string JSONSerializable) (key : string)
    : result Z :=
  rbind (payload_item payload key) int16.

(** The body of the [try] of [handle_cmd_heartbeat_estia]: six
    assignments in a row. *)
Definition heartbeat_assignments (payload : gmap string JSONSerializable)
    : M t unit :=
  v <- lift (reading payload "TFI_temp") ;; store_temperature with_tfi v ;;;
  v <- lift (reading payload "THO_temp") ;; store_temperature with_tho v ;;;
  v <- lift (reading payload "TO_temp") ;; store_temperature with_to v ;;;
  v <- lift (reading payload "TWI_temp") ;; store_temperature with_twi v ;;;
  v <- lift (reading payload "TWO_temp") ;; store_temperature with_two v ;;;
  v <- lift (reading payload "FLO") ;; modify (set_water_flow_rate v).

(** [handle_cmd_heartbeat_estia]; the notification comes after the
    [try], so what the subscribers raise leaves the handler. *)
Definition handle_cmd_heartbeat_estia (payload : gmap string JSONSerializable)
    (notified : result unit) : M t unit :=
  try_except (heartbeat_assignments payload)
             (fun e => emit (LogError "ERROR CONVERTING DATA")) ;;;
  state_changed notified.

(** [self._ac_energy_consumption != val] *)
Definition consumption_differs
    (cached : option properties.ToshibaAcDeviceEnergyConsumption)
    (val : properties.ToshibaAcDeviceEnergyConsumption) : bool :=
  match cached with
  | None => true
  | Some c => negb (properties.consumption_eq c val)
  end.

(** [handle_update_ac_energy_consumption]; the reading is stored before
    the subscribers of energy-changed are called, and [notified] is what
    they do. *)
Definition handle_update_ac_energy_consumption
    (val : properties.ToshibaAcDeviceEnergyConsumption)
    (notified : result unit) : M t unit :=
  self <- get ;;
  if consumption_differs (_ac_energy_consumption self) val then
    modify (set_ac_energy_consumption val) ;;;
    notify (EnergyChanged (ac_unique_id self)) notified
  else ret tt.

(** The readings a device shows. *)
Definition ac_status (self : t) : result properties.ToshibaAcStatus.t :=
  ToshibaAcFcuState.ac_status (fcu_state self).

Definition compressor_status (self : t) : properties.EstiaCompressorStatus.t :=
  ToshibaAcFcuState.compressor_status (fcu_state self).



End ToshibaAcDevice.

(** ** [device_manager.py] *)

(** A [dict] with string keys, in insertion order: [d[k] = v] replaces
    the value of a key already present and appends a new key. *)
Fixpoint dict_set {V} (d : list (string * V)) (k : string) (v : V)
    : list (string * V) :=
  match d with
  | [] => [(k, v)]
  | (k', v') :: r =>
      if String.eqb k' k then (k, v) :: r else (k', v') :: dict_set r k v
  end.

Fixpoint dict_get {V} (d : list (string * V)) (k : string) : result V :=
  match d with
  | [] => Raise KeyError
  | (k', v') :: r => if String.eqb k' k then Ok v' else dict_get r k
  end.

Definition dict_keys {V} (d : list (string * V)) : list string := map fst d.
Definition dict_values {V} (d : list (string * V)) : list V := map snd d.

(** Truth of a [dict] and of an optional [str] in a condition. *)
Definition dict_truthy {V} (d : list (string * V)) : bool :=
  match d with [] => false | _ => true end.

Definition present {A} (o : option A) : bool :=
  match o with Some _ => true | None => false end.

Definition str_truthy (o : option string) : bool :=
  match o with
  | Some s => negb (String.eqb s "")
  | None => false
  end.

Module ToshibaAcDeviceManager.

(** Modelled from the spec: the two transports ([utils/http_api.py] and
    [utils/amqp_api.py] are not part of the sources); a handle records
    what it was built from. *)
Inductive ToshibaAcHttpApi : Type :=
  | HttpApi (username password : string).

Inductive ToshibaAcAmqpApi : Type :=
  | AmqpApi (sas_token : option string).

(** Modelled from the spec: one entry of the listing that
    [ToshibaAcHttpApi.get_devices] returns; the fields are those
    [get_devices] reads. *)
Record DeviceInfo : Type := mkDeviceInfo
  { ac_name : string;
    ac_id : string;
    ac_unique_id : string;
    initial_ac_state : string;
    firmware_version : string;
    merit_feature : string;
    ac_model_id : string }.

Record t : Type := mk
  { username : string;
    password : string;
    http_api : option ToshibaAcHttpApi;
    amqp_api : option ToshibaAcAmqpApi;
    device_id : string;
    sas_token : option string;
    devices : list (string * ToshibaAcDevice.t);
    periodic_fetch_energy_consumption_task : option Task;
    periodic_fetch_device_connection_task : option Task }.

Definition FETCH_ENERGY_CONSUMPTION_PERIOD_MINUTES : Z := 60.
Definition FETCH_DEVICE_STATUS_PERIOD_MINUTES : Z := 60.

(** [__init__] *)
Definition init (username password : string)
    (device_id sas_token : option string) : t :=
  mk username password None None
     (String.append username
        (String.append "_"
           (if str_truthy device_id then default "" device_id
            else "3e6e4eb5f0e5aa46")))
     sas_token [] None None.

Definition set_http_api (h : option ToshibaAcHttpApi) (self : t) : t :=
  mk (username self) (password self) h (amqp_api self) (device_id self)
     (sas_token self) (devices self)
     (periodic_fetch_energy_consumption_task self)
     (periodic_fetch_device_connection_task self).

Definition set_amqp_api (a : option ToshibaAcAmqpApi) (self : t) : t :=
  mk (username self) (password self) (http_api self) a (device_id self)
     (sas_token self) (devices self)
     (periodic_fetch_energy_consumption_task self)
     (periodic_fetch_device_connection_task self).

Definition set_sas_token (k : option string) (self : t) : t :=
  mk (username self) (password self) (http_api self) (amqp_api self)
     (device_id self) k (devices self)
     (periodic_fetch_energy_consumption_task self)
     (periodic_fetch_device_connection_task self).

Definition set_devices (d : list (string * ToshibaAcDevice.t)) (self : t) : t :=
  mk (username self) (password self) (http_api self) (amqp_api self)
     (device_id self) (sas_token self) d
     (periodic_fetch_energy_consumption_task self)
     (periodic_fetch_device_connection_task self).

Definition set_energy_task (k : option Task) (self : t) : t :=
  mk (username self) (password self) (http_api self) (amqp_api self)
     (device_id self) (sas_token self) (devices self) k
     (periodic_fetch_device_connection_task self).

Definition set_connection_task (k : option Task) (self : t) : t :=
  mk (username self) (password self) (http_api self) (amqp_api self)
     (device_id self) (sas_token self) (devices self)
     (periodic_fetch_energy_consumption_task self) k.

Local Open Scope m_scope.

(** A device handler run on the device registered under [id]; the
    registry holds the object, so it sees what the handler changed. *)
Definition on_device {A} (id : string) (c : M ToshibaAcDevice.t A) : M t A :=
  fun self =>
    match dict_get (devices self) id with
    | Raise e => (Raise e, self, [])
    | Ok dev =>
        match c dev with
        | (r, dev', tr) => (r, set_devices (dict_set (devices self) id dev') self, tr)
        end
    end.

(** [await asyncio.gather] on a list of awaitables: every one runs;
    the first exception, if any, is raised. *)
Fixpoint gather (cs : list (M t unit)) : M t unit :=
  match cs with
  | [] => ret tt
  | c :: r =>
      fun self =>
        match c self with
        | (res, self', tr) =>
            match gather r self' with
            | (res', self'', tr') =>
                (match res with Raise e => Raise e | Ok _ => res' end,
                 self'', (tr ++ tr')%list)
            end
        end
  end.

(** What the transports answer during one [shutdown]: the exception,
    if any, of each of the two [shutdown] requests. *)
Record ShutdownAnswers : Type := mkShutdownAnswers
  { amqp_shutdown : option exn;
    http_shutdown : option exn }.

(** [raise_all_errors]: with several exceptions the one raised last is
    the one that leaves the function. *)
Definition raise_all_errors (results : list (option exn)) : result unit :=
  match last (omap id results) with
  | Some e => Raise e
  | None => Ok tt
  end.

Definition cancel_task (k : option Task) : list event :=
  match k with Some task => [TaskCancelled task] | None => [] end.

(** The events of the awaitables [shutdown] gathers, in order. *)
Definition shutdown_events (self : t) : list event :=
  (cancel_task (periodic_fetch_device_connection_task self)
   ++ cancel_task (periodic_fetch_energy_consumption_task self)
   ++ flat_map (fun d => cancel_task (ToshibaAcDevice.periodic_reload_state_task d))
               (dict_values (devices self))
   ++ (if present (amqp_api self) then [AmqpShutdown] else [])
   ++ (if present (http_api self) then [HttpShutdown] else []))%list.

(** The results [gather] returns for the two transports; cancelled
    tasks yield no [Exception]. *)
Definition shutdown_results (a : ShutdownAnswers) (self : t) : list (option exn) :=
  ((if present (amqp_api self) then [amqp_shutdown a] else [])
   ++ (if present (http_api self) then [http_shutdown a] else []))%list.

(** The [finally] of [shutdown]: four handles are cleared. *)
Definition clear_handles (self : t) : t :=
  mk (username self) (password self) None None (device_id self)
     (sas_token self) (devices self) None None.

(** [shutdown] *)
Definition shutdown (a : ShutdownAnswers) : M t unit :=
  fun self =>
    (raise_all_errors (shutdown_results a self),
     clear_handles self,
     shutdown_events self).

(** What the transports answer during one [connect]. *)
Record ConnectAnswers : Type := mkConnectAnswers
  { http_connect : result unit;
    register_client : result string;
    amqp_connect : result unit;
    on_failure : ShutdownAnswers }.

(** The body of [connect] under the lock. *)
Definition connect_locked (a : ConnectAnswers) : M t (option string) :=
  self <- get ;;
  (if present (http_api self) then ret tt
   else
     modify (set_http_api (Some (HttpApi (username self) (password self)))) ;;;
     emit HttpConnect ;;; lift (http_connect a)) ;;;
  self <- get ;;
  (if str_truthy (sas_token self) then ret tt
   else
     emit (HttpRegisterClient (device_id self)) ;;;
     token <- lift (register_client a) ;;
     modify (set_sas_token (Some token))) ;;;
  self <- get ;;
  (if present (amqp_api self) then ret tt
   else
     modify (set_amqp_api (Some (AmqpApi (sas_token self)))) ;;;
     emit AmqpConnect ;;; lift (amqp_connect a)) ;;;
  self <- get ;;
  ret (sas_token self).

(** [connect]: on any exception a full shutdown, then the exception
    again (or the one the shutdown raised). *)
Definition connect (a : ConnectAnswers) : M t (option string) :=
  try_except (connect_locked a)
             (fun e => shutdown (on_failure a) ;;; raise e).

(** What the request channel answers during one [get_devices], and
    what the subscribers of the two notifications of each device do. *)
Record GetDevicesAnswers : Type := mkGetDevicesAnswers
  { listing : result (list DeviceInfo);
    additional_info : string -> result ToshibaAcDevice.AdditionalInfo;
    energy_consumption :
      result (list (string * properties.ToshibaAcDeviceEnergyConsumption));
    state_changed_notified : string -> result unit;
    energy_changed_notified : string -> result unit }.

(** [fetch_energy_consumption], with the answer of the request and what
    the subscribers of energy-changed of each device do. *)
Definition fetch_energy_consumption
    (answer : result (list (string * properties.ToshibaAcDeviceEnergyConsumption)))
    (notified : string -> result unit) : M t unit :=
  self <- get ;;
  if present (http_api self) then
    emit (HttpGetDevicesEnergyConsumption (dict_keys (devices self))) ;;;
    consumptions <- lift answer ;;
    (* the debug record reads [self.devices[id].name] of every entry *)
    lift (foldr (fun kv acc => rbind (dict_get (devices self) kv.1) (fun _ => acc))
                (Ok tt) consumptions) ;;;
    gather (map (fun kv =>
                   on_device kv.1
                     (ToshibaAcDevice.handle_update_ac_energy_consumption kv.2
                        (notified kv.1)))
                consumptions)
  else raise ToshibaAcDeviceManagerError.

(** The loop of [get_devices] over the listing: a device is built and
    registered per entry; building one may raise. *)
Fixpoint register_devices (devices_info : list DeviceInfo) : M t unit :=
  match devices_info with
  | [] => ret tt
  | device_info :: r =>
      self <- get ;;
      device <- lift (ToshibaAcDevice.init
                        (ac_name device_info) (device_id self)
                        (ac_id device_info) (ac_unique_id device_info)
                        (initial_ac_state device_info)
                        (firmware_version device_info)
                        (merit_feature device_info)
                        (ac_model_id device_info)) ;;
      modify (fun m => set_devices
                         (dict_set (devices m)
                                   (ToshibaAcDevice.ac_unique_id device) device) m) ;;;
      register_devices r
  end.

(** [await asyncio.gather] on the [connect] of the device built for
    each entry of the listing. *)
Definition connect_devices (a : GetDevicesAnswers)
    (devices_info : list DeviceInfo) : M t unit :=
  gather (map (fun device_info =>
                 on_device (ac_unique_id device_info)
                   (ToshibaAcDevice.connect
                      (additional_info a (ac_unique_id device_info))
                      (state_changed_notified a (ac_unique_id device_info))))
              devices_info).

(** The two periodic tasks of the fleet, each created unless it is
    there already. *)
Definition start_periodic_tasks : M t unit :=
  self <- get ;;
  (if present (periodic_fetch_energy_consumption_task self) then ret tt
   else
     emit (TaskCreated PeriodicFetchEnergyConsumption) ;;;
     modify (set_energy_task (Some PeriodicFetchEnergyConsumption))) ;;;
  self <- get ;;
  (if present (periodic_fetch_device_connection_task self) then ret tt
   else
     emit (TaskCreated PeriodicFetchDeviceConnection) ;;;
     modify (set_connection_task (Some PeriodicFetchDeviceConnection))).

(** The body of [get_devices] under the lock when the registry is
    empty. *)
Definition populate (a : GetDevicesAnswers) : M t unit :=
  emit HttpGetDevices ;;;
  devices_info <- lift (listing a) ;;
  register_devices devices_info ;;;
  connect_devices a devices_info ;;;
  fetch_energy_consumption (energy_consumption a)
    (energy_changed_notified a) ;;;
  start_periodic_tasks.

(** [get_devices] *)
Definition get_devices (a : GetDevicesAnswers)
    : M t (list ToshibaAcDevice.t) :=
  self <- get ;;
  match http_api self, amqp_api self with
  | Some _, Some _ =>
      (if dict_truthy (devices self) then ret tt else populate a) ;;;
      self <- get ;;
      ret (dict_values (devices self))
  | _, _ => raise ToshibaAcDeviceManagerError
  end.

(** The two command handlers registered on the message bus: the handler
    of the device the message comes from runs, and what it raises
    reaches the caller. *)
Definition handle_cmd_heartbeat_estia (source_id message_id : string)
    (target_id : list JSONSerializable)
    (payload : gmap string JSONSerializable) (timestamp : string)
    (notified : result unit) : M t unit :=
  on_device source_id
    (ToshibaAcDevice.handle_cmd_heartbeat_estia payload notified).

Definition handle_cmd_hcu_from_estia (source_id message_id : string)
    (target_id : list JSONSerializable)
    (payload : gmap string JSONSerializable) (timestamp : string)
    (notified : result unit) : M t unit :=
  on_device source_id
    (ToshibaAcDevice.handle_cmd_hcu_from_estia payload notified).

(** One turn of the loop of [periodic_fetch_energy_consumption], after
    the wait for the next hour: an exception of the fetch, that of a
    subscriber included, is logged. *)
Definition fetch_energy_turn
    (answer : result (list (string * properties.ToshibaAcDeviceEnergyConsumption)))
    (notified : string -> result unit) : M t unit :=
  try_except (fetch_energy_consumption answer notified)
             (fun e => emit (LogError "Fetching energy consumption failed")).

(** The first turns of [periodic_fetch_energy_consumption], one per
    answer of the request channel, each with what the subscribers do in
    that turn. *)
Fixpoint periodic_fetch_energy_consumption
    (answers : list (result (list (string * properties.ToshibaAcDeviceEnergyConsumption))
                     * (string -> result unit)))
    : M t unit :=
  match answers with
  | [] => ret tt
  | answer :: r =>
      fetch_energy_turn answer.1 answer.2 ;;;
      periodic_fetch_energy_consumption r
  end.

End ToshibaAcDeviceManager.

(** * The vocabulary of the properties *)

Import ToshibaAcFcuState.

(** A state whose only flag set is the outdoor-unit-heat one. *)
Definition heating_state : ToshibaAcFcuState.t :=
  mk 255 255 (-1) "" 0 0 0 0 0 0 0 1 0 0 None.

(** Every attribute but the raw state string agrees. *)
Definition same_typed_fields (a b : ToshibaAcFcuState.t) : Prop :=
  _ac_status a = _ac_status b
  /\ _ac_mode a = _ac_mode b
  /\ _ac_temperature a = _ac_temperature b
  /\ _dhw_is_enabled a = _dhw_is_enabled b
  /\ _dhw_target_temperature a = _dhw_target_temperature b
  /\ _new_outdoor_unit_dhw a = _new_outdoor_unit_dhw b
  /\ _new_heating_coil_dhw a = _new_heating_coil_dhw b
  /\ _new_heating_active a = _new_heating_active b
  /\ _water_operation_mode a = _water_operation_mode b
  /\ _zone1_target_temperature a = _zone1_target_temperature b
  /\ _outdoor_unit_heat a = _outdoor_unit_heat b
  /\ _heating_coil_heat a = _heating_coil_heat b
  /\ _water_pump_status a = _water_pump_status b
  /\ _ac_outdoor_temperature a = _ac_outdoor_temperature b.

(** The input of [decode] holds exactly thirty-six bytes. *)
Definition decodes_to_36_bytes (hex_state : string) : Prop :=
  exists b, Py.fromhex hex_state = Some b /\ length b = 36%nat.

(** The blob of thirty-six bytes 0xFF with 0x30 at position [k]. *)
Definition status_on_blob (k : nat) : string :=
  Py.join (replicate k "ff" ++ ["30"] ++ replicate (35 - k) "ff")%list.

(** The blob of thirty-six zero bytes. *)
Definition zero_blob : string := Py.join (replicate 36 "00").

(** What one position of the merge yields: the previous chunk under an
    incoming [ff], the incoming chunk otherwise. *)
Definition sel (p b : string) : string :=
  if String.eqb (Py.lower p) "ff" then b else p.

(** The same on byte values. *)
Definition merge_byte (p b : Z) : Z := if p =? 255 then b else p.

(** The chunks the loop of [merge] appends from position [i] on; [None]
    when it indexes the previous chunks out of range. *)
Fixpoint merged_from (state_bytes : list string) (i : nat)
    (input_bytes : list string) : option (list string) :=
  match input_bytes with
  | [] => Some []
  | c :: r =>
      match (if String.eqb (Py.lower c) "ff" then state_bytes !! i else Some c) with
      | Some x => cons x <$> merged_from state_bytes (S i) r
      | None => None
      end
  end.

(** A chunk of two hexadecimal digits. *)
Inductive hex_chunk : string -> Prop :=
  | hex_chunk_intro (a b : ascii) (x y : Z) :
      Py.digit_value a = Some x -> Py.digit_value b = Some y ->
      hex_chunk (String a (String b EmptyString)).

(** The byte a chunk of two hexadecimal digits denotes. *)
Definition chunk_byte (c : string) : Z :=
  match Py.fromhex c with
  | Some [z] => z
  | _ => 0
  end.

(** A blob on the wire: seventy-two hexadecimal digits. *)
Definition is_blob (s : string) : Prop :=
  String.length s = 72%nat /\ Py.all_hex s = true.




(** Readings that are all zero. *)
Definition zero_temperatures : ToshibaAcDevice.Temperatures :=
  ToshibaAcDevice.mkTemperatures 0 0 0 0 0 0.

(** A device that has its additional information and no reading yet. *)
Definition pump : ToshibaAcDevice.t :=
  ToshibaAcDevice.mk "pump" "user_3e6e4eb5f0e5aa46" "1" "uid-1" "1.0"
    ToshibaAcFcuState.init None None None (Some zero_temperatures) 0 None None.

(** A payload whose first reading is not hexadecimal. *)
Definition bad_first_payload : gmap string JSONSerializable :=
  <[ "TFI_temp" := JStr "zz" ]>
  (<[ "THO_temp" := JStr "10" ]>
  (<[ "TO_temp" := JStr "11" ]>
  (<[ "TWI_temp" := JStr "12" ]>
  (<[ "TWO_temp" := JStr "13" ]>
  (<[ "FLO" := JStr "0A" ]> ∅))))).

(** A payload whose six readings are hexadecimal. *)
Definition good_payload : gmap string JSONSerializable :=
  <[ "TFI_temp" := JStr "0A" ]> bad_first_payload.

(** Two readings with the same energy, as numbers, and the same start
    of the measurement window. *)
Definition same_reading (a b : properties.ToshibaAcDeviceEnergyConsumption)
    : Prop :=
  Qeq (properties.energy_wh a) (properties.energy_wh b)
  /\ properties.since a = properties.since b.

(** A reading that differs from the cached one: nothing is cached, or
    the energy or the start of the window is another. *)
Definition new_reading
    (cached : option properties.ToshibaAcDeviceEnergyConsumption)
    (val : properties.ToshibaAcDeviceEnergyConsumption) : Prop :=
  match cached with
  | None => True
  | Some c => ~ same_reading c val
  end.

#[global] Instance Qeq_decision (x y : Q) : Decision (Qeq x y) := Qeq_dec x y.

#[global] Instance same_reading_dec
    (a b : properties.ToshibaAcDeviceEnergyConsumption)
    : Decision (same_reading a b).
Proof. unfold same_reading. apply _. Defined.

#[global] Instance new_reading_dec
    (cached : option properties.ToshibaAcDeviceEnergyConsumption)
    (val : properties.ToshibaAcDeviceEnergyConsumption)
    : Decision (new_reading cached val).
Proof. destruct cached; simpl; apply _. Defined.

(** A sequence of calls of [handle_update_ac_energy_consumption], each
    with its reading and with what the subscribers of energy-changed do;
    a call that raises leaves the device to the next one. *)
Fixpoint energy_updates
    (calls : list (properties.ToshibaAcDeviceEnergyConsumption * result unit))
    (self : ToshibaAcDevice.t) : ToshibaAcDevice.t * list event :=
  match calls with
  | [] => (self, [])
  | c :: r =>
      match ToshibaAcDevice.handle_update_ac_energy_consumption c.1 c.2 self with
      | (_, self', tr) =>
          match energy_updates r self' with
          | (self'', tr') => (self'', (tr ++ tr')%list)
          end
      end
  end.

(** The number of readings of a sequence that differ from the one
    before, the cached one being before the first. *)
Fixpoint changes (cached : option properties.ToshibaAcDeviceEnergyConsumption)
    (vals : list properties.ToshibaAcDeviceEnergyConsumption) : nat :=
  match vals with
  | [] => 0
  | val :: r =>
      ((if decide (new_reading cached val) then 1 else 0)
       + changes (Some val) r)%nat
  end.

(** The last reading of a sequence that differed from the one cached
    when it came. *)
Fixpoint last_differing (cached : option properties.ToshibaAcDeviceEnergyConsumption)
    (vals : list properties.ToshibaAcDeviceEnergyConsumption)
    : option properties.ToshibaAcDeviceEnergyConsumption :=
  match vals with
  | [] => cached
  | val :: r =>
      last_differing
        (if decide (new_reading cached val) then Some val else cached) r
  end.

(** An energy reading. *)
Definition reading_a : properties.ToshibaAcDeviceEnergyConsumption :=
  {| properties.energy_wh := Qmake 1500 1; properties.since := 1700000000 |}.

(** The device [pump] with that reading cached. *)
Definition metered_pump : ToshibaAcDevice.t :=
  ToshibaAcDevice.set_ac_energy_consumption reading_a pump.

(** The request for the listing of the fleet. *)
Definition is_listing_fetch (ev : event) : bool :=
  match ev with HttpGetDevices => true | _ => false end.

(** The number of requests for the listing of the fleet in a trace. *)
Definition listing_fetches (tr : list event) : nat :=
  length (List.filter is_listing_fetch tr).

(** The calls a client makes on a manager, each with what the
    transports answer during it. *)
Inductive call : Type :=
  | Connect (a : ToshibaAcDeviceManager.ConnectAnswers)
  | GetDevices (a : ToshibaAcDeviceManager.GetDevicesAnswers)
  | Shutdown (a : ToshibaAcDeviceManager.ShutdownAnswers).

Definition do_call (c : call) : M ToshibaAcDeviceManager.t unit :=
  match c with
  | Connect a => bind (ToshibaAcDeviceManager.connect a) (fun _ => ret tt)
  | GetDevices a => bind (ToshibaAcDeviceManager.get_devices a) (fun _ => ret tt)
  | Shutdown a => ToshibaAcDeviceManager.shutdown a
  end.

(** A session: the calls one after the other; a call that raises
    leaves the manager to the next one. *)
Fixpoint session (cs : list call) (self : ToshibaAcDeviceManager.t)
    : ToshibaAcDeviceManager.t * list event :=
  match cs with
  | [] => (self, [])
  | c :: r =>
      match do_call c self with
      | (_, self', tr) =>
          match session r self' with
          | (self'', tr') => (self'', (tr ++ tr')%list)
          end
      end
  end.

(** Both transports are there. *)
Definition connected (self : ToshibaAcDeviceManager.t) : Prop :=
  present (ToshibaAcDeviceManager.http_api self) = true
  /\ present (ToshibaAcDeviceManager.amqp_api self) = true.

(** A computation keeps a relation between the object before and after
    and emits only events of one kind. *)
Definition respects {S A} (R : S -> S -> Prop) (T : event -> Prop)
    (c : M S A) : Prop :=
  forall s, R s (c s).1.2 /\ Forall T (c s).2.

(** Any event but the request for the listing. *)
Definition not_fetch (ev : event) : Prop := is_listing_fetch ev = false.

(** The relation that holds between any two objects. *)
Definition any_state {S} (_ _ : S) : Prop := True.

(** The registry has the same identifiers. *)
Definition same_keys (s s' : ToshibaAcDeviceManager.t) : Prop :=
  dict_keys (ToshibaAcDeviceManager.devices s')
  = dict_keys (ToshibaAcDeviceManager.devices s).

(** The registry is the same. *)
Definition same_devices (s s' : ToshibaAcDeviceManager.t) : Prop :=
  ToshibaAcDeviceManager.devices s' = ToshibaAcDeviceManager.devices s.

(** Two fleets of one device each, under different identifiers. *)
Definition fleet_a : list ToshibaAcDeviceManager.DeviceInfo :=
  [ToshibaAcDeviceManager.mkDeviceInfo "Estia A" "1" "uid-a" zero_blob "1.0" "" ""].

Definition fleet_b : list ToshibaAcDeviceManager.DeviceInfo :=
  [ToshibaAcDeviceManager.mkDeviceInfo "Estia B" "2" "uid-b" zero_blob "1.0" "" ""].

(** Transports that answer every request of a [connect]. *)
Definition connect_answers : ToshibaAcDeviceManager.ConnectAnswers :=
  ToshibaAcDeviceManager.mkConnectAnswers (Ok tt) (Ok "token") (Ok tt)
    (ToshibaAcDeviceManager.mkShutdownAnswers None None).

(** A request channel that lists [l], has additional information for
    every device and no energy reading, with subscribers that raise
    nothing. *)
Definition listing_answers (l : list ToshibaAcDeviceManager.DeviceInfo)
    : ToshibaAcDeviceManager.GetDevicesAnswers :=
  ToshibaAcDeviceManager.mkGetDevicesAnswers (Ok l)
    (fun _ => Ok (ToshibaAcDevice.mkAdditionalInfo None None None
                    (Some zero_temperatures)))
    (Ok []) (fun _ => Ok tt) (fun _ => Ok tt).

(** Transports that shut down without an exception. *)
Definition shutdown_answers : ToshibaAcDeviceManager.ShutdownAnswers :=
  ToshibaAcDeviceManager.mkShutdownAnswers None None.

(** A manager as [__init__] leaves it. *)
Definition fresh_manager : ToshibaAcDeviceManager.t :=
  ToshibaAcDeviceManager.init "user" "secret" None None.

(** The manager after a first session has listed [fleet_a]. *)
Definition populated_manager : ToshibaAcDeviceManager.t :=
  (session [Connect connect_answers; GetDevices (listing_answers fleet_a)]
           fresh_manager).1.

(** The state a sequence of updates leaves, each one applied to what the
    one before left, whether it raised or not. *)
Definition updates (diffs : list string) (self : ToshibaAcFcuState.t)
    : ToshibaAcFcuState.t :=
  foldl (fun s d => (update s d).2) self diffs.

(** The byte at position [i] of a list of bytes, zero past its end. *)
Definition byte_at (b : list Z) (i : nat) : Z := default 0 (b !! i).

(** Every attribute of a device but its decoded state agrees. *)
Definition same_but_fcu_state (a b : ToshibaAcDevice.t) : Prop :=
  ToshibaAcDevice.name a = ToshibaAcDevice.name b
  /\ ToshibaAcDevice.device_id a = ToshibaAcDevice.device_id b
  /\ ToshibaAcDevice.ac_id a = ToshibaAcDevice.ac_id b
  /\ ToshibaAcDevice.ac_unique_id a = ToshibaAcDevice.ac_unique_id b
  /\ ToshibaAcDevice.firmware_version a = ToshibaAcDevice.firmware_version b
  /\ ToshibaAcDevice.cdu a = ToshibaAcDevice.cdu b
  /\ ToshibaAcDevice.fcu a = ToshibaAcDevice.fcu b
  /\ ToshibaAcDevice.serial_number a = ToshibaAcDevice.serial_number b
  /\ ToshibaAcDevice.temperatures a = ToshibaAcDevice.temperatures b
  /\ ToshibaAcDevice._water_flow_rate a = ToshibaAcDevice._water_flow_rate b
  /\ ToshibaAcDevice._ac_energy_consumption a
     = ToshibaAcDevice._ac_energy_consumption b
  /\ ToshibaAcDevice.periodic_reload_state_task a
     = ToshibaAcDevice.periodic_reload_state_task b.


(** No transport and no periodic task of the fleet. *)
Definition disconnected (m : ToshibaAcDeviceManager.t) : Prop :=
  ToshibaAcDeviceManager.http_api m = None
  /\ ToshibaAcDeviceManager.amqp_api m = None
  /\ ToshibaAcDeviceManager.periodic_fetch_energy_consumption_task m = None
  /\ ToshibaAcDeviceManager.periodic_fetch_device_connection_task m = None.

(** The transports, the token and the task handles are the same. *)
Definition same_handles (s s' : ToshibaAcDeviceManager.t) : Prop :=
  ToshibaAcDeviceManager.http_api s' = ToshibaAcDeviceManager.http_api s
  /\ ToshibaAcDeviceManager.amqp_api s' = ToshibaAcDeviceManager.amqp_api s
  /\ ToshibaAcDeviceManager.sas_token s' = ToshibaAcDeviceManager.sas_token s
  /\ ToshibaAcDeviceManager.periodic_fetch_energy_consumption_task s'
     = ToshibaAcDeviceManager.periodic_fetch_energy_consumption_task s
  /\ ToshibaAcDeviceManager.periodic_fetch_device_connection_task s'
     = ToshibaAcDeviceManager.periodic_fetch_device_connection_task s.


(** Any event. *)
Definition any_event (_ : event) : Prop := True.

(** Transports of which the message bus refuses the connection. *)
Definition refusing_bus_answers : ToshibaAcDeviceManager.ConnectAnswers :=
  ToshibaAcDeviceManager.mkConnectAnswers (Ok tt) (Ok "token")
    (Raise ConnectionError) shutdown_answers.


(** The manager after a connect that went through. *)
Definition connected_manager : ToshibaAcDeviceManager.t :=
  (session [Connect connect_answers] fresh_manager).1.

(** The notification of a new energy reading of some device. *)
Definition is_energy_changed (ev : event) : Prop :=
  exists id, ev = EnergyChanged id.



(** A device that stores the blob of zero bytes. *)
Definition zero_pump : ToshibaAcDevice.t :=
  ToshibaAcDevice.mk "pump" "user_3e6e4eb5f0e5aa46" "1" "uid-1" "1.0"
    (set_status_string init zero_blob) None None None
    (Some zero_temperatures) 0 None None.

(** The reading cached by the device registered under [id], if any. *)
Definition cached_under (m : ToshibaAcDeviceManager.t) (id : string)
    : option properties.ToshibaAcDeviceEnergyConsumption :=
  match dict_get (ToshibaAcDeviceManager.devices m) id with
  | Ok dev => ToshibaAcDevice._ac_energy_consumption dev
  | Raise _ => None
  end.

(** * Properties *)

(** ** Enum decoding *)

Section enum_tables.

Lemma getitem_insert {V} (d : gmap Z V) (k raw : Z) (v : V) :
  getitem (<[ k := v ]> d) raw = if raw =? k then Ok v else getitem d raw.
Proof.
  unfold getitem. destruct (Z.eqb_spec raw k) as [->|Hne].
  - by rewrite lookup_insert_eq.
  - by rewrite lookup_insert_ne.
Qed.

Lemma getitem_empty {V} (raw : Z) : getitem (∅ : gmap Z V) raw = Raise KeyError.
Proof. unfold getitem. by rewrite lookup_empty. Qed.

Lemma AcStatus_from_raw_cases (raw : Z) :
  AcStatus.from_raw raw =
    if raw =? 48 then Ok properties.ToshibaAcStatus.ON
    else if raw =? 49 then Ok properties.ToshibaAcStatus.OFF
    else if raw =? 2 then Ok properties.ToshibaAcStatus.NONE
    else if raw =? 255 then Ok properties.ToshibaAcStatus.NONE
    else Raise KeyError.
Proof.
  unfold AcStatus.from_raw, AcStatus.table, NONE_VAL.
  by rewrite !getitem_insert, getitem_empty.
Qed.

Lemma AcMode_from_raw_cases (raw : Z) :
  AcMode.from_raw raw =
    if raw =? 65 then Ok properties.ToshibaAcMode.AUTO
    else if raw =? 66 then Ok properties.ToshibaAcMode.COOL
    else if raw =? 67 then Ok properties.ToshibaAcMode.HEAT
    else if raw =? 0 then Ok properties.ToshibaAcMode.NONE
    else if raw =? 255 then Ok properties.ToshibaAcMode.NONE
    else Raise KeyError.
Proof.
  unfold AcMode.from_raw, AcMode.table, NONE_VAL.
  by rewrite !getitem_insert, getitem_empty.
Qed.

Lemma EstiaWaterMode_from_raw_cases (raw : Z) :
  EstiaWaterMode.from_raw raw =
    if raw =? 5 then Ok properties.EstiaWaterMode.COOL
    else if raw =? 6 then Ok properties.EstiaWaterMode.HEAT
    else if raw =? 0 then Ok properties.EstiaWaterMode.NONE
    else Raise KeyError.
Proof.
  unfold EstiaWaterMode.from_raw, EstiaWaterMode.table.
  by rewrite !getitem_insert, getitem_empty.
Qed.

End enum_tables.

Ltac eqb_cases :=
  repeat match goal with
         | |- context [ (?a =? ?b)%Z ] => destruct (Z.eqb_spec a b); try lia
         | H : context [ (?a =? ?b)%Z ] |- _ => destruct (Z.eqb_spec a b); try lia
         end.

Ltac table_cases :=
  repeat case_bool_decide; eqb_cases; try reflexivity; try (exfalso; lia).

(** C4 (as stated, refuted): a raw value outside the table does not
    decode to NONE, the lookup raises KeyError; so does the sentinel 0xFF
    for the water mode. *)
Lemma enum_decoders_not_total :
  AcStatus.from_raw 0 = Raise KeyError
  /\ AcMode.from_raw 1 = Raise KeyError
  /\ EstiaWaterMode.from_raw 255 = Raise KeyError.
Proof. by vm_compute. Qed.

(** C4 (amended): each enum decoder returns a variant exactly on the raw
    values of its table and raises KeyError on every other one; on the
    raw values of ON, OFF, AUTO, COOL, HEAT and on 0xFF the encoders of
    status and mode give the raw value back, and decoding an encoded
    variant gives the variant back. *)
Theorem enum_decoders_partial (raw : Z) :
  (AcStatus.from_raw raw =
     if bool_decide (raw = 48) then Ok properties.ToshibaAcStatus.ON
     else if bool_decide (raw = 49) then Ok properties.ToshibaAcStatus.OFF
     else if bool_decide (raw = 2 \/ raw = 255) then Ok properties.ToshibaAcStatus.NONE
     else Raise KeyError)
  /\ (AcMode.from_raw raw =
     if bool_decide (raw = 65) then Ok properties.ToshibaAcMode.AUTO
     else if bool_decide (raw = 66) then Ok properties.ToshibaAcMode.COOL
     else if bool_decide (raw = 67) then Ok properties.ToshibaAcMode.HEAT
     else if bool_decide (raw = 0 \/ raw = 255) then Ok properties.ToshibaAcMode.NONE
     else Raise KeyError)
  /\ (EstiaWaterMode.from_raw raw =
     if bool_decide (raw = 5) then Ok properties.EstiaWaterMode.COOL
     else if bool_decide (raw = 6) then Ok properties.EstiaWaterMode.HEAT
     else if bool_decide (raw = 0) then Ok properties.EstiaWaterMode.NONE
     else Raise KeyError)
  /\ (forall v, AcStatus.from_raw (AcStatus.to_raw v) = Ok v)
  /\ (forall v, AcMode.from_raw (AcMode.to_raw v) = Ok v)
  /\ (forall v, AcStatus.from_raw raw = Ok v -> raw <> 2 -> AcStatus.to_raw v = raw)
  /\ (forall v, AcMode.from_raw raw = Ok v -> raw <> 0 -> AcMode.to_raw v = raw).
Proof.
  rewrite AcStatus_from_raw_cases, AcMode_from_raw_cases,
    EstiaWaterMode_from_raw_cases.
  repeat split.
  - table_cases.
  - table_cases.
  - table_cases.
  - by intros [].
  - by intros [].
  - intros v; eqb_cases; intros Hv ?; inversion Hv; subst;
      simpl; unfold NONE_VAL; lia.
  - intros v; eqb_cases; intros Hv ?; inversion Hv; subst;
      simpl; unfold NONE_VAL; lia.
Qed.

(** The amended C4 at the raw value of HEAT. *)
Lemma enum_decoders_partial_witness :
  AcMode.from_raw 67 = Ok properties.ToshibaAcMode.HEAT
  /\ AcMode.to_raw properties.ToshibaAcMode.HEAT = 67.
Proof.
  split.
  - exact (proj1 (proj2 (enum_decoders_partial 67))).
  - apply (proj2 (proj2 (proj2 (proj2 (proj2 (proj2 (enum_decoders_partial 67))))))).
    + by vm_compute.
    + lia.
Defined.

(** ** The derived compressor status *)

(** C10: [compressor_status] is DHW when the outdoor-unit-DHW flag is
    not zero, else HEAT when the outdoor-unit-heat flag is not zero, else
    OFF; it is never NONE. *)
Theorem compressor_status_priority (self : ToshibaAcFcuState.t) :
  (_new_outdoor_unit_dhw self <> 0 ->
     compressor_status self = properties.EstiaCompressorStatus.DHW)
  /\ (_new_outdoor_unit_dhw self = 0 -> _outdoor_unit_heat self <> 0 ->
     compressor_status self = properties.EstiaCompressorStatus.HEAT)
  /\ (_new_outdoor_unit_dhw self = 0 -> _outdoor_unit_heat self = 0 ->
     compressor_status self = properties.EstiaCompressorStatus.OFF)
  /\ compressor_status self <> properties.EstiaCompressorStatus.NONE.
Proof.
  unfold compressor_status, truthy.
  repeat split; intros; eqb_cases; simpl; try reflexivity; try discriminate.
Qed.

(** C10 at a state whose only flag is the outdoor-unit-heat one. *)
Lemma compressor_status_priority_witness :
  compressor_status heating_state = properties.EstiaCompressorStatus.HEAT.
Proof.
  apply (proj1 (proj2 (compressor_status_priority heating_state))).
  - reflexivity.
  - simpl. lia.
Defined.

(** ** Decoding *)

Lemma decode_raises (self : ToshibaAcFcuState.t) (hex_state : string) :
  ~ decodes_to_36_bytes hex_state ->
  exists e, decode self hex_state = (Raise e, set_status_string self hex_state).
Proof.
  intros Hbad. unfold decode.
  destruct (Py.fromhex hex_state) as [b|] eqn:Hb; [|by eexists].
  unfold unpack. destruct (Nat.eqb_spec (length b) 36) as [Hlen|Hlen]; [|by eexists].
  destruct Hbad. by exists b.
Qed.

(** A list of thirty-six bytes has the twenty leading positions the
    assignment of [decode] names. *)
Lemma decode_succeeds (self : ToshibaAcFcuState.t) (hex_state : string) :
  decodes_to_36_bytes hex_state ->
  exists s, decode self hex_state = (Ok tt, s)
            /\ _status_string s = hex_state
            /\ _ac_status s = _ac_status self
            /\ _ac_mode s = _ac_mode self
            /\ _ac_temperature s = _ac_temperature self.
Proof.
  intros (b & Hb & Hlen). unfold decode, unpack. rewrite Hb, Hlen. simpl.
  do 20 (destruct b as [|? b]; [discriminate Hlen|]).
  eexists. split; [reflexivity|]. by simpl.
Qed.

(** C9: on an input that is not valid hex or does not hold thirty-six
    bytes, [decode] raises, every typed attribute keeps its value, and the
    raw state string is already the rejected input: the object is changed
    whenever the input differs from the string stored before. *)
Theorem decode_failure_replaces_status_string
    (self : ToshibaAcFcuState.t) (hex_state : string) :
  ~ decodes_to_36_bytes hex_state ->
  exists e s,
    decode self hex_state = (Raise e, s)
    /\ same_typed_fields self s
    /\ _status_string s = hex_state
    /\ (hex_state <> _status_string self -> s <> self).
Proof.
  intros Hbad. destruct (decode_raises self hex_state Hbad) as [e He].
  exists e, (set_status_string self hex_state).
  split; [exact He|]. split; [by repeat split|]. split; [reflexivity|].
  intros Hne Heq. apply Hne. by rewrite <- Heq.
Qed.

(** C9 on a fresh state and the input [zz]. *)
Lemma decode_failure_replaces_status_string_witness :
  exists e s,
    decode init "zz" = (Raise e, s)
    /\ same_typed_fields init s
    /\ _status_string s = "zz"
    /\ ("zz" <> _status_string init -> s <> init).
Proof.
  apply (decode_failure_replaces_status_string init "zz").
  intros (b & Hb & _). vm_compute in Hb. discriminate Hb.
Defined.

(** [decode] never assigns the status, the mode or the temperature of
    the appliance side. *)
Lemma decode_keeps_ac_status (self s : ToshibaAcFcuState.t) (hex_state : string) r :
  decode self hex_state = (r, s) ->
  _ac_status s = _ac_status self /\ _ac_mode s = _ac_mode self.
Proof.
  unfold decode. destruct (Py.fromhex hex_state) as [b|]; [|by intros [= _ <-]].
  destruct (unpack b) as [data|]; [|by intros [= _ <-]].
  do 20 (destruct data as [|? data]; [by intros [= _ <-]|]).
  by intros [= _ <-].
Qed.

(** C5 (as stated, refuted): wherever the byte 0x30 stands, the decoded
    status is NONE and not ON, and other fields are not none: the
    compressor status is DHW and the target temperature a number. *)
Lemma status_on_blob_not_on :
  forallb (fun k =>
    match from_hex_state (status_on_blob k) with
    | Ok s =>
        match ac_status s, compressor_status s with
        | Ok properties.ToshibaAcStatus.NONE,
          properties.EstiaCompressorStatus.DHW => true
        | _, _ => false
        end
    | Raise _ => false
    end) (seq 0 36) = true.
Proof. by vm_compute. Qed.

(** C5 (amended): decoding the blob of 0xFF bytes with 0x30 at any one
    position succeeds and leaves the status and the mode NONE, as
    [decode] assigns neither; the decoded fields carry the raw bytes: the
    compressor status is DHW, the water pump and coil flags are not zero,
    and reading the water mode raises KeyError. *)
Theorem status_on_blob_decodes (k : nat) :
  (k < 36)%nat ->
  exists s,
    from_hex_state (status_on_blob k) = Ok s
    /\ ac_status s = Ok properties.ToshibaAcStatus.NONE
    /\ ac_mode s = Ok properties.ToshibaAcMode.NONE
    /\ compressor_status s = properties.EstiaCompressorStatus.DHW
    /\ zone1_mode s = Raise KeyError
    /\ water_pump_is_running s <> 0
    /\ electric_coil_dhw_is_active s <> 0
    /\ electric_coil_heat_is_active s <> 0.
Proof.
  intros Hk.
  do 36 (destruct k as [|k];
         [eexists; split; [by vm_compute|]; by vm_compute|]).
  lia.
Qed.

(** The amended C5 with 0x30 in the first byte. *)
Lemma status_on_blob_decodes_witness :
  exists s,
    from_hex_state (status_on_blob 0) = Ok s
    /\ ac_status s = Ok properties.ToshibaAcStatus.NONE
    /\ ac_mode s = Ok properties.ToshibaAcMode.NONE
    /\ compressor_status s = properties.EstiaCompressorStatus.DHW
    /\ zone1_mode s = Raise KeyError
    /\ water_pump_is_running s <> 0
    /\ electric_coil_dhw_is_active s <> 0
    /\ electric_coil_heat_is_active s <> 0.
Proof. apply (status_on_blob_decodes 0). lia. Defined.

(** ** Encoding *)

(** C2 (as stated, refuted): the state decoded from the blob of zero
    bytes encodes to the empty string, and decoding that raises. *)
Lemma decode_encode_raises :
  exists s,
    from_hex_state zero_blob = Ok s
    /\ encode s = ""
    /\ (decode s (encode s)).1 = Raise StructError.
Proof. eexists. split; [by vm_compute|]. by vm_compute. Qed.

(** C2 (amended): [encode] returns the empty string for every state, and
    decoding it raises (no bytes, thirty-six wanted), keeps every typed
    attribute and empties the stored raw string; decoding is not an
    inverse of encoding. *)
Theorem encode_is_empty (self : ToshibaAcFcuState.t) :
  encode self = ""
  /\ decode self (encode self) = (Raise StructError, set_status_string self "")
  /\ same_typed_fields self (set_status_string self "").
Proof. split; [reflexivity|]. split; [reflexivity|]. by repeat split. Qed.

(** ** Merging *)

Section merge_props.

Lemma string_ind2 (P : string -> Prop) :
  P EmptyString ->
  (forall a, P (String a EmptyString)) ->
  (forall a b r, P r -> P (String a (String b r))) ->
  forall s, P s.
Proof.
  intros H0 H1 H2 s.
  assert (P s /\ forall a, P (String a s)) as [? _]; [|done].
  induction s as [|b r [IH1 IH2]]; split; auto.
Qed.

Lemma join_chunks2 (s : string) : Py.join (Py.chunks2 s) = s.
Proof.
  induction s as [|a|a b r IH] using string_ind2; simpl; try done.
  by rewrite IH.
Qed.

Lemma length_chunks2 (s : string) :
  length (Py.chunks2 s) = Nat.div2 (S (String.length s)).
Proof.
  induction s as [|a|a b r IH] using string_ind2; simpl; try done.
  by rewrite IH.
Qed.

Lemma fold_merge_step_raise sb e l :
  foldl (merge_step sb) (Raise e) l = Raise e.
Proof. induction l as [|x l IH]; simpl; done. Qed.

Lemma merge_fold sb ib : forall i acc,
  foldl (merge_step sb) (Ok acc) (Py.enumerate_from i ib) =
    match merged_from sb i ib with
    | Some l => Ok (acc ++ l)%list
    | None => Raise IndexError
    end.
Proof.
  induction ib as [|c r IH]; intros i acc; simpl.
  - by rewrite app_nil_r.
  - destruct (String.eqb (Py.lower c) "ff").
    + destruct (sb !! i) as [b|]; simpl.
      * rewrite IH. destruct (merged_from sb (S i) r); simpl; [|done].
        by rewrite <- app_assoc.
      * apply fold_merge_step_raise.
    + rewrite IH. destruct (merged_from sb (S i) r); simpl; [|done].
      by rewrite <- app_assoc.
Qed.

Lemma merge_merged_from (P B : string) :
  merge P B =
    match merged_from (Py.chunks2 B) 0 (Py.chunks2 P) with
    | Some l => Ok (Py.join l)
    | None => Raise IndexError
    end.
Proof.
  unfold merge, Py.enumerate. rewrite merge_fold.
  by destruct (merged_from _ _ _).
Qed.

Lemma merged_from_none sb ib : forall i,
  merged_from sb i ib = None <->
  exists j c, ib !! j = Some c /\ Py.lower c = "ff"
              /\ (length sb <= i + j)%nat.
Proof.
  induction ib as [|c r IH]; intros i; simpl.
  - split; [done|]. by intros (j & c & ? & _).
  - destruct (String.eqb_spec (Py.lower c) "ff") as [Hff|Hff].
    + destruct (sb !! i) as [b|] eqn:Hb.
      * destruct (merged_from sb (S i) r) as [l|] eqn:Hm; simpl.
        -- split; [done|]. intros (j & c' & Hj & Hc' & Hlen).
           destruct j as [|j]; simpl in Hj.
           ++ apply lookup_lt_Some in Hb. lia.
           ++ assert (merged_from sb (S i) r = None) as Hn; [|congruence].
              apply IH. exists j, c'. repeat split; [done..|lia].
        -- split; [|done]. intros _. apply IH in Hm as (j & c' & ? & ? & ?).
           exists (S j), c'. repeat split; [done..|lia].
      * split; [|done]. intros _. exists 0%nat, c.
        apply lookup_ge_None in Hb. repeat split; [done..|lia].
    + destruct (merged_from sb (S i) r) as [l|] eqn:Hm; simpl.
      * split; [done|]. intros (j & c' & Hj & Hc' & Hlen).
        destruct j as [|j]; simpl in Hj; [congruence|].
        assert (merged_from sb (S i) r = None) as Hn; [|congruence].
        apply IH. exists j, c'. repeat split; [done..|lia].
      * split; [|done]. intros _. apply IH in Hm as (j & c' & ? & ? & ?).
        exists (S j), c'. repeat split; [done..|lia].
Qed.

Lemma merged_from_zip ib : forall pre sb,
  length ib = length sb ->
  merged_from (pre ++ sb) (length pre) ib = Some (zip_with sel ib sb).
Proof.
  induction ib as [|c r IH]; intros pre [|b sb] Hlen; simpl in *; try done.
  specialize (IH (pre ++ [b])%list sb).
  rewrite length_app, <- app_assoc in IH. simpl in IH.
  replace (length pre + 1)%nat with (S (length pre)) in IH by lia.
  rewrite IH by lia. unfold sel.
  destruct (String.eqb (Py.lower c) "ff"); [|done].
  rewrite lookup_app_r by lia. by rewrite Nat.sub_diag.
Qed.

Lemma merge_same_length (P B : string) :
  String.length P = String.length B ->
  merge P B = Ok (Py.join (zip_with sel (Py.chunks2 P) (Py.chunks2 B))).
Proof.
  intros Hlen. rewrite merge_merged_from.
  rewrite (merged_from_zip _ [] (Py.chunks2 B)); [done|].
  by rewrite !length_chunks2, Hlen.
Qed.

Lemma digit_value_facts (a : ascii) (x : Z) :
  Py.digit_value a = Some x ->
  0 <= x < 16 /\ Py.isspace a = false
  /\ Ascii.eqb (Py.lower_char a) "f" = (x =? 15).
Proof.
  destruct a as [[] [] [] [] [] [] [] []]; intros H; vm_compute in H;
    try discriminate H; injection H as <-; (split; [lia|]); by vm_compute.
Qed.

Lemma chunk_byte_hex a b x y :
  Py.digit_value a = Some x -> Py.digit_value b = Some y ->
  Py.fromhex (String a (String b EmptyString)) = Some [x * 16 + y].
Proof.
  intros Ha Hb. simpl.
  destruct (digit_value_facts a x Ha) as (_ & -> & _).
  by rewrite Ha, Hb.
Qed.

Lemma chunk_byte_value a b x y :
  Py.digit_value a = Some x -> Py.digit_value b = Some y ->
  chunk_byte (String a (String b EmptyString)) = x * 16 + y.
Proof.
  intros Ha Hb. unfold chunk_byte. by rewrite (chunk_byte_hex a b x y Ha Hb).
Qed.

Lemma hex_chunk_ff (c : string) :
  hex_chunk c -> String.eqb (Py.lower c) "ff" = (chunk_byte c =? 255).
Proof.
  intros [a b x y Ha Hb].
  rewrite (chunk_byte_value a b x y Ha Hb). simpl.
  destruct (digit_value_facts a x Ha) as (Hx & _ & ->).
  destruct (digit_value_facts b y Hb) as (Hy & _ & ->).
  destruct (Z.eqb_spec x 15), (Z.eqb_spec y 15), (Z.eqb_spec (x * 16 + y) 255);
    simpl; try reflexivity; lia.
Qed.

Lemma chunks2_hex (s : string) :
  Py.all_hex s = true -> Nat.even (String.length s) = true ->
  Forall hex_chunk (Py.chunks2 s).
Proof.
  induction s as [|a|a b r IH] using string_ind2; simpl.
  - by constructor.
  - done.
  - intros Hhex Heven.
    apply andb_prop in Hhex as [Ha Hhex]. apply andb_prop in Hhex as [Hb Hhex].
    unfold Py.is_hex_digit in Ha, Hb.
    destruct (Py.digit_value a) as [x|] eqn:Hx; [|done].
    destruct (Py.digit_value b) as [y|] eqn:Hy; [|done].
    constructor; [by econstructor|]. by apply IH.
Qed.

Lemma fromhex_join (l : list string) :
  Forall hex_chunk l -> Py.fromhex (Py.join l) = Some (map chunk_byte l).
Proof.
  induction 1 as [|c r Hc _ IH]; [done|].
  destruct Hc as [a b x y Ha Hb]. cbn [map].
  rewrite (chunk_byte_value a b x y Ha Hb). simpl.
  destruct (digit_value_facts a x Ha) as (_ & -> & _).
  rewrite Ha, Hb.
  change (String.append EmptyString (Py.join r)) with (Py.join r).
  by rewrite IH.
Qed.

Lemma fromhex_chunks (s : string) :
  Py.all_hex s = true -> Nat.even (String.length s) = true ->
  Py.fromhex s = Some (map chunk_byte (Py.chunks2 s)).
Proof.
  intros Hhex Heven. rewrite <- (join_chunks2 s) at 1.
  by apply fromhex_join, chunks2_hex.
Qed.

Lemma zip_sel_hex (ib : list string) : forall sb,
  Forall hex_chunk ib -> Forall hex_chunk sb ->
  Forall hex_chunk (zip_with sel ib sb)
  /\ map chunk_byte (zip_with sel ib sb)
     = zip_with merge_byte (map chunk_byte ib) (map chunk_byte sb).
Proof.
  induction ib as [|c r IH]; intros [|b sb] Hib Hsb; simpl; try done.
  inversion Hib as [|? ? Hc Hr]; inversion Hsb as [|? ? Hb Hs]; subst.
  destruct (IH sb Hr Hs) as [IH1 IH2].
  unfold sel at 1 3, merge_byte at 1. rewrite (hex_chunk_ff c Hc).
  split.
  - constructor; [|done]. by destruct (chunk_byte c =? 255).
  - rewrite IH2. by destruct (chunk_byte c =? 255).
Qed.

Lemma zip_sel_all_ff (ib : list string) : forall sb,
  length ib = length sb ->
  Forall hex_chunk ib ->
  (forall z, z ∈ map chunk_byte ib -> z = 255) ->
  zip_with sel ib sb = sb.
Proof.
  induction ib as [|c r IH]; intros [|b sb] Hlen Hib Hff; simpl in *; try done.
  inversion Hib as [|? ? Hc Hr]; subst.
  unfold sel at 1. rewrite (hex_chunk_ff c Hc).
  rewrite (Hff (chunk_byte c)) by apply list_elem_of_here. simpl.
  f_equal. apply IH; [lia|done|].
  intros z Hz. apply Hff. by apply list_elem_of_further.
Qed.

End merge_props.

Lemma is_blob_bytes (s : string) :
  is_blob s ->
  Forall hex_chunk (Py.chunks2 s)
  /\ Py.fromhex s = Some (map chunk_byte (Py.chunks2 s))
  /\ length (Py.chunks2 s) = 36%nat.
Proof.
  intros [Hlen Hhex].
  assert (Nat.even (String.length s) = true) as Heven by (by rewrite Hlen).
  split; [by apply chunks2_hex|]. split; [by apply fromhex_chunks|].
  by rewrite length_chunks2, Hlen.
Qed.

(** C1: for a previous blob [B] and a partial blob [P], both of
    seventy-two hexadecimal digits, [merge P B] (the call [update] makes)
    returns a blob whose byte at every position is the byte of [P] unless
    that is 0xFF, and then the byte of [B]; a partial blob of 0xFF bytes
    only gives [B] back; [update] on a state holding [B] stores the
    merged blob. *)
Theorem merge_bytewise (P B : string) :
  is_blob P -> is_blob B ->
  exists p b out,
    Py.fromhex P = Some p /\ Py.fromhex B = Some b
    /\ length p = 36%nat /\ length b = 36%nat
    /\ merge P B = Ok out
    /\ Py.fromhex out = Some (zip_with merge_byte p b)
    /\ (forall i pi bi, p !! i = Some pi -> b !! i = Some bi ->
          zip_with merge_byte p b !! i = Some (if pi =? 255 then bi else pi))
    /\ ((forall z, z ∈ p -> z = 255) -> out = B)
    /\ (forall self, _status_string self = B ->
          exists s, update self P = (Ok true, s) /\ _status_string s = out).
Proof.
  intros HP HB.
  destruct (is_blob_bytes P HP) as (HcP & HfP & HlP).
  destruct (is_blob_bytes B HB) as (HcB & HfB & HlB).
  destruct (zip_sel_hex _ _ HcP HcB) as [Hz1 Hz2].
  assert (merge P B = Ok (Py.join (zip_with sel (Py.chunks2 P) (Py.chunks2 B))))
    as Hm by (apply merge_same_length; destruct HP, HB; congruence).
  assert (Py.fromhex (Py.join (zip_with sel (Py.chunks2 P) (Py.chunks2 B)))
          = Some (zip_with merge_byte (map chunk_byte (Py.chunks2 P))
                                      (map chunk_byte (Py.chunks2 B))))
    as Hout by (by rewrite fromhex_join, Hz2).
  exists (map chunk_byte (Py.chunks2 P)), (map chunk_byte (Py.chunks2 B)),
    (Py.join (zip_with sel (Py.chunks2 P) (Py.chunks2 B))).
  repeat split; try done.
  - by rewrite length_map.
  - by rewrite length_map.
  - intros i pi bi Hpi Hbi. rewrite lookup_zip_with, Hpi, Hbi. done.
  - intros Hff. rewrite zip_sel_all_ff; [apply join_chunks2|congruence|done..].
  - intros self Hself. unfold update. rewrite Hself, Hm.
    destruct (decode_succeeds self
                (Py.join (zip_with sel (Py.chunks2 P) (Py.chunks2 B))))
      as (s & Hs & Hstr & _).
    + eexists. split; [exact Hout|].
      rewrite length_zip_with, !length_map. lia.
    + exists s. by rewrite Hs.
Qed.

(** C1 on the partial blob with 0x30 in its first byte and the previous
    blob of zero bytes. *)
Lemma merge_bytewise_witness :
  exists p b out,
    Py.fromhex (status_on_blob 0) = Some p /\ Py.fromhex zero_blob = Some b
    /\ length p = 36%nat /\ length b = 36%nat
    /\ merge (status_on_blob 0) zero_blob = Ok out
    /\ Py.fromhex out = Some (zip_with merge_byte p b)
    /\ (forall i pi bi, p !! i = Some pi -> b !! i = Some bi ->
          zip_with merge_byte p b !! i = Some (if pi =? 255 then bi else pi))
    /\ ((forall z, z ∈ p -> z = 255) -> out = zero_blob)
    /\ (forall self, _status_string self = zero_blob ->
          exists s, update self (status_on_blob 0) = (Ok true, s)
                    /\ _status_string s = out).
Proof.
  apply (merge_bytewise (status_on_blob 0) zero_blob).
  - split; reflexivity.
  - split; reflexivity.
Defined.

Lemma merged_from_no_ff sb ib : forall i,
  (forall c, c ∈ ib -> Py.lower c <> "ff") -> merged_from sb i ib = Some ib.
Proof.
  induction ib as [|c r IH]; intros i Hno; simpl; [done|].
  destruct (String.eqb_spec (Py.lower c) "ff") as [Hff|_].
  - destruct (Hno c); [apply list_elem_of_here|done].
  - rewrite IH; [done|]. intros c' Hc'. apply Hno. by apply list_elem_of_further.
Qed.

(** C3 (as stated, refuted): blobs of different lengths are merged
    without an error, whichever is the longer one. *)
Lemma merge_accepts_different_lengths :
  merge "0102" "01" = Ok "0102" /\ merge "01" "0102" = Ok "01".
Proof. by vm_compute. Qed.

(** C3 (amended): [merge] has no check of the lengths; it raises, and
    then IndexError, exactly when the incoming string has an [ff] chunk
    at a position where the previous string has no chunk; an incoming
    string without [ff] chunks is returned as it is, whatever the
    previous string. *)
Theorem merge_raises_iff (P B : string) :
  ((exists e, merge P B = Raise e) <->
   (exists i c, Py.chunks2 P !! i = Some c /\ Py.lower c = "ff"
                /\ (length (Py.chunks2 B) <= i)%nat))
  /\ (forall e, merge P B = Raise e -> e = IndexError)
  /\ ((forall c, c ∈ Py.chunks2 P -> Py.lower c <> "ff") -> merge P B = Ok P).
Proof.
  rewrite merge_merged_from. repeat split.
  - intros [e He].
    destruct (merged_from (Py.chunks2 B) 0 (Py.chunks2 P)) eqn:Hm; [done|].
    by apply merged_from_none in Hm.
  - intros Hex. apply (merged_from_none _ _ 0%nat) in Hex. rewrite Hex. by eexists.
  - intros e. destruct (merged_from _ _ _); [done|]. by intros [= <-].
  - intros Hno. rewrite merged_from_no_ff by done. by rewrite join_chunks2.
Qed.

(** The amended C3 on an incoming string whose second chunk is [FF] and
    a previous string of one chunk. *)
Lemma merge_raises_iff_witness :
  (exists e, merge "01FF" "01" = Raise e) /\ merge "0102" "01" = Ok "0102".
Proof.
  split.
  - apply (proj1 (merge_raises_iff "01FF" "01")).
    exists 1%nat, "FF". repeat split; simpl; lia.
  - apply (proj2 (proj2 (merge_raises_iff "0102" "01"))).
    intros c Hc. vm_compute in Hc.
    apply elem_of_cons in Hc as [->|Hc]; [by vm_compute|].
    apply elem_of_cons in Hc as [->|Hc]; [by vm_compute|].
    by apply elem_of_nil in Hc.
Defined.

(** ** The telemetry push *)


Ltac run_handler :=
  unfold ToshibaAcDevice.handle_cmd_heartbeat_estia,
    ToshibaAcDevice.heartbeat_assignments, ToshibaAcDevice.store_temperature,
    ToshibaAcDevice.state_changed, try_except, bind, lift, get, modify,
    emit, notify, raise, ret; simpl.




(** ** The energy update *)

Section energy.

Import properties.

(** The comparison the dataclass generates is the equality of the two
    fields. *)
Lemma consumption_eq_spec a b : consumption_eq a b = true <-> same_reading a b.
Proof.
  unfold consumption_eq, same_reading.
  by rewrite andb_true_iff, Qeq_bool_iff, Z.eqb_eq.
Qed.

Lemma consumption_differs_spec cached val :
  ToshibaAcDevice.consumption_differs cached val = true <-> new_reading cached val.
Proof.
  destruct cached as [c|]; simpl; [|done].
  rewrite negb_true_iff, <- consumption_eq_spec.
  by destruct (consumption_eq c val).
Qed.

Lemma if_new_reading {A} cached val (x y : A) :
  (if decide (new_reading cached val) then x else y)
  = if ToshibaAcDevice.consumption_differs cached val then x else y.
Proof.
  destruct (decide (new_reading cached val)) as [Hn|Hn];
    destruct (ToshibaAcDevice.consumption_differs cached val) eqn:Hd; try done.
  - apply consumption_differs_spec in Hn. congruence.
  - apply consumption_differs_spec in Hd. done.
Qed.

Lemma same_reading_refl a : same_reading a a.
Proof. split; [reflexivity|done]. Qed.

Lemma same_reading_sym a b : same_reading a b -> same_reading b a.
Proof. intros [H1 H2]. split; [by symmetry|done]. Qed.

Lemma same_reading_trans a b c :
  same_reading a b -> same_reading b c -> same_reading a c.
Proof. intros [H1 H2] [H3 H4]. split; [by rewrite H1|congruence]. Qed.

Lemma new_reading_congr a b c :
  same_reading a b -> new_reading (Some a) c <-> new_reading (Some b) c.
Proof.
  intros Hab. simpl. split; intros Hn Hs; apply Hn.
  - by eapply same_reading_trans.
  - eapply same_reading_trans; [|done]. by apply same_reading_sym.
Qed.

(** The cache after a call is the reading of the call up to the
    equality of readings, so the next call compares with it. *)
Lemma changes_congr a b vals :
  same_reading a b -> changes (Some a) vals = changes (Some b) vals.
Proof.
  intros Hab. destruct vals as [|v r]; [done|]. cbn [changes].
  destruct (decide (new_reading (Some a) v)) as [Ha|Ha],
    (decide (new_reading (Some b) v)) as [Hb|Hb]; try done.
  - by apply (new_reading_congr a b v Hab) in Ha.
  - by apply (new_reading_congr a b v Hab) in Hb.
Qed.

Lemma handle_update_cases val notified (self : ToshibaAcDevice.t) :
  ToshibaAcDevice.handle_update_ac_energy_consumption val notified self
  = if ToshibaAcDevice.consumption_differs
         (ToshibaAcDevice._ac_energy_consumption self) val
    then (notified, ToshibaAcDevice.set_ac_energy_consumption val self,
          [EnergyChanged (ToshibaAcDevice.ac_unique_id self)])
    else (Ok tt, self, []).
Proof.
  unfold ToshibaAcDevice.handle_update_ac_energy_consumption,
    bind, get, modify, notify, ret.
  by destruct (ToshibaAcDevice.consumption_differs _ val), notified.
Qed.

Lemma energy_updates_run
    (calls : list (ToshibaAcDeviceEnergyConsumption * result unit)) :
  forall self : ToshibaAcDevice.t,
    (energy_updates calls self).2
    = repeat (EnergyChanged (ToshibaAcDevice.ac_unique_id self))
             (changes (ToshibaAcDevice._ac_energy_consumption self)
                      (map fst calls))
    /\ ToshibaAcDevice.ac_unique_id (energy_updates calls self).1
       = ToshibaAcDevice.ac_unique_id self
    /\ ToshibaAcDevice._ac_energy_consumption (energy_updates calls self).1
       = last_differing (ToshibaAcDevice._ac_energy_consumption self)
                        (map fst calls).
Proof.
  induction calls as [|[v n] r IH]; intros self; [done|].
  cbn [energy_updates map fst snd changes last_differing].
  rewrite handle_update_cases, !if_new_reading.
  destruct (ToshibaAcDevice.consumption_differs
              (ToshibaAcDevice._ac_energy_consumption self) v) eqn:Hd.
  - destruct (IH (ToshibaAcDevice.set_ac_energy_consumption v self))
      as (Htr & Hid & Hc).
    destruct (energy_updates r _) as [self' tr]. simpl in *.
    by rewrite Htr, Hid, Hc.
  - destruct (IH self) as (Htr & Hid & Hc).
    destruct (energy_updates r self) as [self' tr]. simpl in *.
    rewrite Htr, Hid, Hc. split; [|done].
    destruct (ToshibaAcDevice._ac_energy_consumption self) as [c|] eqn:Hcache;
      [|done].
    f_equal. apply changes_congr.
    apply consumption_eq_spec. simpl in Hd. by apply negb_false_iff in Hd.
Qed.

Lemma last_differing_last vals : forall cached v,
  last vals = Some v ->
  exists c, last_differing cached vals = Some c /\ same_reading c v.
Proof.
  induction vals as [|w r IH]; intros cached v Hlast; [done|].
  destruct r as [|w' r'].
  - injection Hlast as ->. simpl.
    destruct (decide (new_reading cached v)) as [Hn|Hn].
    + exists v. split; [done|apply same_reading_refl].
    + destruct cached as [c|]; simpl in Hn; [|done].
      exists c. split; [done|]. by destruct (decide (same_reading c v)).
  - change (last_differing cached (w :: w' :: r'))
      with (last_differing
              (if decide (new_reading cached w) then Some w else cached)
              (w' :: r')).
    by apply IH.
Qed.

End energy.

(** C7 (as stated, refuted): on a device that has the reading cached,
    two calls in a row with that reading emit no notification, not
    one. *)
Lemma energy_same_reading_twice_is_silent :
  ToshibaAcDevice._ac_energy_consumption metered_pump = Some reading_a
  /\ (energy_updates [(reading_a, Ok tt); (reading_a, Ok tt)] metered_pump).2
     = [].
Proof. by vm_compute. Qed.

(** C7 (amended): over any sequence of calls, a call emits
    energy-changed exactly when its reading differs from the cached one
    (nothing cached, or another energy or another start of the window),
    which makes one notification per reading that differs from the
    reading before it; two calls in a row with equal readings emit
    exactly one notification when the first differs from the cached
    reading, and none otherwise; the cached reading is in the end the
    last reading that differed, and equal to the last one passed. *)
Theorem energy_changed_on_difference
    (self : ToshibaAcDevice.t)
    (calls : list (properties.ToshibaAcDeviceEnergyConsumption * result unit)) :
  let id := ToshibaAcDevice.ac_unique_id self in
  let cached := ToshibaAcDevice._ac_energy_consumption self in
  (forall val notified,
     (new_reading cached val ->
      ToshibaAcDevice.handle_update_ac_energy_consumption val notified self
      = (notified, ToshibaAcDevice.set_ac_energy_consumption val self,
         [EnergyChanged id]))
     /\ (~ new_reading cached val ->
         ToshibaAcDevice.handle_update_ac_energy_consumption val notified self
         = (Ok tt, self, [])))
  /\ (energy_updates calls self).2
     = repeat (EnergyChanged id) (changes cached (map fst calls))
  /\ ToshibaAcDevice._ac_energy_consumption (energy_updates calls self).1
     = last_differing cached (map fst calls)
  /\ (forall v, last (map fst calls) = Some v ->
        exists c,
          ToshibaAcDevice._ac_energy_consumption (energy_updates calls self).1
          = Some c
          /\ same_reading c v)
  /\ (forall v w n1 n2,
        same_reading v w ->
        (new_reading cached v ->
         (energy_updates [(v, n1); (w, n2)] self).2 = [EnergyChanged id])
        /\ (~ new_reading cached v ->
            (energy_updates [(v, n1); (w, n2)] self).2 = [])).
Proof.
  intros id cached.
  destruct (energy_updates_run calls self) as (Htr & _ & Hc).
  split; [|split; [done|split; [done|split]]].
  - intros val notified. rewrite handle_update_cases. fold cached. split.
    + intros Hn. apply consumption_differs_spec in Hn. by rewrite Hn.
    + intros Hn.
      destruct (ToshibaAcDevice.consumption_differs cached val) eqn:Hd; [|done].
      by apply consumption_differs_spec in Hd.
  - intros v Hv. rewrite Hc. by apply last_differing_last.
  - intros v w n1 n2 Hvw.
    destruct (energy_updates_run [(v, n1); (w, n2)] self) as (Htr2 & _ & _).
    rewrite Htr2. fold id cached. cbn [map fst changes].
    assert (~ new_reading (Some v) w) as Hw by (simpl; tauto).
    destruct (decide (new_reading (Some v) w)) as [?|_]; [done|].
    split; intros Hn; by destruct (decide (new_reading cached v)).
Qed.

(** The amended C7 on a device without a cached reading and the same
    reading twice, with subscribers that raise on the first call. *)
Lemma energy_changed_on_difference_witness :
  (energy_updates [(reading_a, Raise ConnectionError); (reading_a, Ok tt)]
                  pump).2
  = [EnergyChanged "uid-1"].
Proof.
  apply (proj1 (proj2 (proj2 (proj2 (proj2
           (energy_changed_on_difference pump [])))) reading_a reading_a
           (Raise ConnectionError) (Ok tt) (conj (Qeq_refl _) eq_refl))).
  exact I.
Defined.

(** ** The registry of the manager *)

Section respects.

Context {S : Type} (R : S -> S -> Prop) (T : event -> Prop).
Context (R_refl : forall s, R s s).
Context (R_trans : forall a b c, R a b -> R b c -> R a c).

Lemma respects_ret {A} (a : A) : respects R T (ret a).
Proof. intros s. by split; [apply R_refl|constructor]. Qed.

Lemma respects_raise {A} (e : exn) : respects R T (@raise S A e).
Proof. intros s. by split; [apply R_refl|constructor]. Qed.

Lemma respects_lift {A} (r : result A) : respects R T (lift r).
Proof. intros s. by split; [apply R_refl|constructor]. Qed.

Lemma respects_get : respects R T (@get S).
Proof. intros s. by split; [apply R_refl|constructor]. Qed.

Lemma respects_emit (ev : event) : T ev -> respects R T (@emit S ev).
Proof. intros Hev s. split; [apply R_refl|]. by repeat constructor. Qed.

Lemma respects_modify (f : S -> S) :
  (forall s, R s (f s)) -> respects R T (modify f).
Proof. intros Hf s. by split; [apply Hf|constructor]. Qed.

Lemma respects_bind {A B} (c : M S A) (k : A -> M S B) :
  respects R T c -> (forall a, respects R T (k a)) -> respects R T (bind c k).
Proof.
  intros Hc Hk s. unfold bind. specialize (Hc s).
  destruct (c s) as [[[a|e] s'] tr]; simpl in *; [|done].
  specialize (Hk a s'). destruct (k a s') as [[r s''] tr']; simpl in *.
  destruct Hc, Hk. split; [by eapply R_trans|by apply Forall_app].
Qed.

Lemma respects_try_except {A} (c : M S A) (h : exn -> M S A) :
  respects R T c -> (forall e, respects R T (h e)) ->
  respects R T (try_except c h).
Proof.
  intros Hc Hh s. unfold try_except. specialize (Hc s).
  destruct (c s) as [[[a|e] s'] tr]; simpl in *; [done|].
  specialize (Hh e s'). destruct (h e s') as [[r s''] tr']; simpl in *.
  destruct Hc, Hh. split; [by eapply R_trans|by apply Forall_app].
Qed.

Lemma respects_if {A} (b : bool) (c1 c2 : M S A) :
  respects R T c1 -> respects R T c2 -> respects R T (if b then c1 else c2).
Proof. by destruct b. Qed.

End respects.

Section registry.

Import ToshibaAcDeviceManager.

Lemma listing_fetches_app tr tr' :
  listing_fetches (tr ++ tr') = (listing_fetches tr + listing_fetches tr')%nat.
Proof. unfold listing_fetches. by rewrite List.filter_app, length_app. Qed.

Lemma listing_fetches_quiet tr : Forall not_fetch tr -> listing_fetches tr = 0%nat.
Proof.
  unfold listing_fetches. induction 1 as [|ev tr Hev _ IH]; simpl; [done|].
  unfold not_fetch in Hev. by rewrite Hev.
Qed.

Lemma dict_keys_set_present {V} (d : list (string * V)) k v v' :
  dict_get d k = Ok v -> dict_keys (dict_set d k v') = dict_keys d.
Proof.
  induction d as [|[k0 v0] d IH]; simpl; [done|].
  destruct (String.eqb_spec k0 k) as [->|Hne]; simpl; [done|].
  intros Hget. by rewrite IH.
Qed.

Lemma dict_keys_set {V} (d : list (string * V)) k v id :
  id ∈ dict_keys (dict_set d k v) <-> id ∈ dict_keys d \/ id = k.
Proof.
  induction d as [|[k0 v0] d IH]; simpl.
  - rewrite elem_of_cons, elem_of_nil. tauto.
  - destruct (String.eqb_spec k0 k) as [->|Hne]; simpl.
    + rewrite !elem_of_cons. tauto.
    + rewrite !elem_of_cons, IH. tauto.
Qed.

Lemma same_keys_refl s : same_keys s s.
Proof. done. Qed.

Lemma same_keys_trans a b c : same_keys a b -> same_keys b c -> same_keys a c.
Proof. unfold same_keys. congruence. Qed.

Lemma on_device_respects {A} (T : event -> Prop) id
    (c : M ToshibaAcDevice.t A) :
  (forall d, Forall T (c d).2) -> respects same_keys T (on_device id c).
Proof.
  intros Hc s. unfold on_device.
  destruct (dict_get (devices s) id) as [dev|e] eqn:Hget; simpl.
  - specialize (Hc dev). destruct (c dev) as [[r dev'] tr]; simpl in *.
    split; [|done]. unfold same_keys. simpl.
    by apply (dict_keys_set_present _ _ dev).
  - by split; [|constructor].
Qed.

Lemma gather_respects (R : t -> t -> Prop) (T : event -> Prop) cs :
  (forall s, R s s) -> (forall a b c, R a b -> R b c -> R a c) ->
  Forall (respects R T) cs -> respects R T (gather cs).
Proof.
  intros R_refl R_trans. induction 1 as [|c cs Hc _ IH]; simpl.
  - by apply respects_ret.
  - intros s. specialize (Hc s). destruct (c s) as [[r s'] tr]; simpl in *.
    specialize (IH s'). destruct (gather cs s') as [[r' s''] tr']; simpl in *.
    destruct Hc, IH. split; [by eapply R_trans|by apply Forall_app].
Qed.

Lemma device_connect_quiet answer notified d :
  Forall not_fetch (ToshibaAcDevice.connect answer notified d).2.
Proof. destruct answer, notified; simpl; by repeat constructor. Qed.

Lemma handle_update_quiet val notified d :
  Forall not_fetch
    (ToshibaAcDevice.handle_update_ac_energy_consumption val notified d).2.
Proof.
  rewrite handle_update_cases.
  destruct (ToshibaAcDevice.consumption_differs _ val);
    simpl; by repeat constructor.
Qed.

Lemma connect_devices_respects (a : GetDevicesAnswers) devices_info :
  respects same_keys not_fetch (connect_devices a devices_info).
Proof.
  apply gather_respects; [apply same_keys_refl|apply same_keys_trans|].
  apply Forall_map, Forall_forall. intros device_info _. simpl.
  apply on_device_respects. intros d. apply device_connect_quiet.
Qed.

Lemma fetch_energy_consumption_respects answer notified :
  respects same_keys not_fetch (fetch_energy_consumption answer notified).
Proof.
  unfold fetch_energy_consumption.
  apply respects_bind; [apply same_keys_trans|apply respects_get, same_keys_refl|].
  intros self. apply respects_if; [|apply respects_raise, same_keys_refl].
  apply respects_bind; [apply same_keys_trans|apply respects_emit; [apply same_keys_refl|done]|].
  intros _.
  apply respects_bind; [apply same_keys_trans|apply respects_lift, same_keys_refl|].
  intros consumptions.
  apply respects_bind; [apply same_keys_trans|apply respects_lift, same_keys_refl|].
  intros _.
  apply gather_respects; [apply same_keys_refl|apply same_keys_trans|].
  apply Forall_map, Forall_forall. intros kv _. simpl.
  apply on_device_respects. intros d. apply handle_update_quiet.
Qed.

Lemma start_periodic_tasks_respects :
  respects same_keys not_fetch start_periodic_tasks.
Proof.
  unfold start_periodic_tasks.
  repeat first
    [ apply respects_bind; [apply same_keys_trans| |intros ?]
    | apply respects_if
    | apply respects_get, same_keys_refl
    | apply respects_ret, same_keys_refl
    | apply respects_emit; [apply same_keys_refl|done]
    | by apply respects_modify ].
Qed.

End registry.

Section populate.

Import ToshibaAcDeviceManager.

Lemma device_init_id n di ai ui st fw mf am d :
  ToshibaAcDevice.init n di ai ui st fw mf am = Ok d ->
  ToshibaAcDevice.ac_unique_id d = ui.
Proof.
  unfold ToshibaAcDevice.init.
  destruct (ToshibaAcFcuState.from_hex_state st); simpl; [|done].
  by intros [= <-].
Qed.

(** The loop over the listing emits nothing; when it ends without an
    exception the registry has the keys it had and the identifiers of
    the listing. *)
Lemma register_devices_run devices_info : forall m,
  exists r m',
    register_devices devices_info m = (r, m', [])
    /\ (r = Ok tt ->
        forall id, id ∈ dict_keys (devices m') <->
                   id ∈ dict_keys (devices m)
                   \/ id ∈ map ac_unique_id devices_info).
Proof.
  induction devices_info as [|info l IH]; intros m.
  - exists (Ok tt), m. split; [done|]. intros _ id. simpl.
    rewrite elem_of_nil. tauto.
  - cbn [register_devices]. unfold bind at 1. unfold get at 1. cbv beta iota.
    unfold bind at 1. unfold lift at 1. cbv beta iota.
    destruct (ToshibaAcDevice.init _ _ _ _ _ _ _ _) as [d|e] eqn:Hd.
    + apply device_init_id in Hd.
      unfold bind at 1. unfold modify at 1. cbv beta iota.
      destruct (IH (set_devices
                      (dict_set (devices m) (ToshibaAcDevice.ac_unique_id d) d) m))
        as (r & m' & Hrun & Hkeys).
      rewrite Hrun. exists r, m'. split; [done|].
      intros Hr id. rewrite (Hkeys Hr id). simpl.
      rewrite dict_keys_set, elem_of_cons, Hd. tauto.
    + exists (Raise e), m. by split.
Qed.

Lemma register_devices_respects devices_info :
  respects any_state not_fetch (register_devices devices_info).
Proof.
  intros m. destruct (register_devices_run devices_info m) as (r & m' & -> & _).
  by split; [|constructor].
Qed.

Lemma weaken_any_state {A} (R : t -> t -> Prop) T (c : M t A) :
  respects R T c -> respects any_state T c.
Proof. intros Hc s. destruct (Hc s). by split. Qed.

(** Filling the registry asks for the listing once. *)
Lemma populate_fetches_once (a : GetDevicesAnswers) (m : t) :
  listing_fetches (populate a m).2 = 1%nat.
Proof.
  unfold populate. unfold bind at 1. unfold emit at 1. cbv beta iota.
  match goal with
  | |- context [ bind (lift (listing a)) ?k ] =>
      assert (respects any_state not_fetch (bind (lift (listing a)) k)) as Hq
  end.
  { apply respects_bind; [done|by apply respects_lift|]. intros l.
    apply respects_bind; [done|apply register_devices_respects|]. intros _.
    apply respects_bind;
      [done|apply (weaken_any_state same_keys), connect_devices_respects|].
    intros _.
    apply respects_bind;
      [done|apply (weaken_any_state same_keys),
              fetch_energy_consumption_respects|].
    intros _.
    apply (weaken_any_state same_keys), start_periodic_tasks_respects. }
  specialize (Hq m). destruct (bind (lift (listing a)) _ m) as [[r m'] tr].
  destruct Hq as [_ Hq]. simpl in *.
  change (HttpGetDevices :: tr) with ([HttpGetDevices] ++ tr)%list.
  by rewrite listing_fetches_app, (listing_fetches_quiet tr).
Qed.

Lemma bind_ok {S A B} (c : M S A) (k : A -> M S B) s b s'' tr :
  bind c k s = (Ok b, s'', tr) ->
  exists a s' tr1 tr2,
    c s = (Ok a, s', tr1) /\ k a s' = (Ok b, s'', tr2)
    /\ tr = (tr1 ++ tr2)%list.
Proof.
  unfold bind. destruct (c s) as [[[a|e] s'] tr1]; [|done].
  destruct (k a s') as [[r s2] tr2] eqn:Hk. intros [= -> -> <-].
  by exists a, s', tr1, tr2.
Qed.

(** When filling the registry ends without an exception, the registry
    holds the identifiers of the listing. *)
Lemma populate_registers (a : GetDevicesAnswers) (m m' : t) tr :
  populate a m = (Ok tt, m', tr) ->
  exists devices_info,
    listing a = Ok devices_info
    /\ forall id, id ∈ dict_keys (devices m') <->
                  id ∈ dict_keys (devices m)
                  \/ id ∈ map ac_unique_id devices_info.
Proof.
  unfold populate. intros H.
  apply bind_ok in H as (? & m0 & tr0 & tr0' & Hemit & H0 & _).
  unfold emit in Hemit. injection Hemit as _ <- _.
  apply bind_ok in H0 as (l & m1 & tr1 & tr1' & Hl & H1 & _).
  unfold lift in Hl. injection Hl as Hl <- _.
  apply bind_ok in H1 as (? & m2 & tr2 & tr2' & Hreg & H2 & _).
  apply bind_ok in H2 as (? & m3 & tr3 & tr3' & Hcon & H3 & _).
  apply bind_ok in H3 as (? & m4 & tr4 & tr4' & Hen & Htasks & _).
  exists l. split; [done|]. intros id.
  destruct (register_devices_run l m) as (r & mr & Hrun & Hkeys).
  rewrite Hrun in Hreg. injection Hreg as -> ->.
  assert (Ok x0 = Ok tt) as Hok by (by destruct x0).
  rewrite <- (Hkeys Hok id).
  destruct (connect_devices_respects a l m2) as [K1 _].
  destruct (fetch_energy_consumption_respects (energy_consumption a)
              (energy_changed_notified a) m3) as [K2 _].
  destruct (start_periodic_tasks_respects m4) as [K3 _].
  rewrite Hcon in K1. rewrite Hen in K2. rewrite Htasks in K3.
  unfold same_keys in *. simpl in *. by rewrite K3, K2, K1.
Qed.

Lemma get_devices_cached (a : GetDevicesAnswers) (m : t) :
  connected m -> devices m <> [] ->
  get_devices a m = (Ok (dict_values (devices m)), m, []).
Proof.
  intros [Hh Ha] Hne. unfold get_devices, bind, get.
  destruct (http_api m); [|done]. destruct (amqp_api m); [|done].
  destruct (devices m) as [|kv d] eqn:Hd; [by destruct Hne|].
  simpl. by rewrite Hd.
Qed.

Lemma get_devices_empty (a : GetDevicesAnswers) (m : t) :
  connected m -> devices m = [] ->
  get_devices a m =
    match populate a m with
    | (Ok _, m', tr) => (Ok (dict_values (devices m')), m', (tr ++ [])%list)
    | (Raise e, m', tr) => (Raise e, m', tr)
    end.
Proof.
  intros [Hh Ha] Hempty. unfold get_devices. unfold bind at 1, get at 1.
  cbv beta iota. destruct (http_api m); [|done]. destruct (amqp_api m); [|done].
  rewrite Hempty. cbn [dict_truthy]. unfold bind at 1.
  by destruct (populate a m) as [[[[]|e] m'] tr].
Qed.

Lemma shutdown_keeps_registry (a : ShutdownAnswers) (m : t) :
  devices (shutdown a m).1.2 = devices m
  /\ http_api (shutdown a m).1.2 = None
  /\ amqp_api (shutdown a m).1.2 = None.
Proof. done. Qed.

Lemma connect_respects (a : ConnectAnswers) :
  respects same_devices (fun _ => True) (connect a).
Proof.
  assert (forall s, same_devices s s) as Hrefl by done.
  assert (forall x y z, same_devices x y -> same_devices y z -> same_devices x z)
    as Htrans by (unfold same_devices; congruence).
  unfold connect, connect_locked.
  apply respects_try_except; [done| |].
  - repeat first
      [ apply respects_bind; [done| |intros ?]
      | apply respects_if
      | by apply respects_get
      | by apply respects_ret
      | by apply respects_lift
      | by apply respects_emit
      | by apply respects_modify ].
  - intros e. apply respects_bind; [done| |intros ?].
    + intros s. split; [done|]. apply Forall_forall. done.
    + by apply respects_raise.
Qed.

Lemma connect_keeps_registry (a : ConnectAnswers) (m : t) :
  devices (connect a m).1.2 = devices m.
Proof. by destruct (connect_respects a m). Qed.

(** A [connect] that returns has both transports. *)
Lemma connect_ok_connected (a : ConnectAnswers) (m m' : t) token tr :
  connect a m = (Ok token, m', tr) -> connected m'.
Proof.
  destruct m as [u p [h|] [q|] di tok devs t1 t2];
    destruct a as [[[]|e1] [tk|e2] [[]|e3] sa];
    unfold connect, connect_locked, try_except, bind, get, modify, emit,
      lift, ret, raise, shutdown; simpl;
    destruct (str_truthy tok); simpl;
    try (match goal with
         | |- context [ raise_all_errors ?x ] => destruct (raise_all_errors x)
         end);
    intros H; try discriminate H; injection H as _ <- _; by split.
Qed.

End populate.

(** C8 (as stated, refuted): after connect, a listing of one device,
    shutdown and a fresh connect, [get_devices] does not ask for the
    listing again although the fleet is now another one: one request in
    the whole trace, and the registry still holds the first device. *)
Lemma registry_not_repopulated :
  let end_ :=
    session [Connect connect_answers; GetDevices (listing_answers fleet_a);
             Shutdown shutdown_answers;
             Connect connect_answers; GetDevices (listing_answers fleet_b)]
            fresh_manager in
  listing_fetches end_.2 = 1%nat
  /\ dict_keys (ToshibaAcDeviceManager.devices end_.1) = ["uid-a"]
  /\ present (ToshibaAcDeviceManager.http_api end_.1) = true
  /\ present (ToshibaAcDeviceManager.amqp_api end_.1) = true.
Proof. by vm_compute. Qed.

(** C8 (amended): on a connected manager, [get_devices] with an empty
    registry asks for the listing exactly once and, when it returns,
    returns the devices of a registry that holds the identifiers of the
    listing; with a registry that is not empty it returns the cached
    devices, changes nothing and sends no request, however often it is
    called; the registry is never cleared: it is the same after a
    shutdown and a connect that returns, so [get_devices] then still
    returns the cached devices without a request. *)
Theorem registry_populated_while_empty
    (a : ToshibaAcDeviceManager.GetDevicesAnswers)
    (m : ToshibaAcDeviceManager.t) :
  connected m ->
  (ToshibaAcDeviceManager.devices m = [] ->
     listing_fetches (ToshibaAcDeviceManager.get_devices a m).2 = 1%nat
     /\ forall ds m' tr,
          ToshibaAcDeviceManager.get_devices a m = (Ok ds, m', tr) ->
          ds = dict_values (ToshibaAcDeviceManager.devices m')
          /\ exists devices_info,
               ToshibaAcDeviceManager.listing a = Ok devices_info
               /\ forall id,
                    id ∈ dict_keys (ToshibaAcDeviceManager.devices m') <->
                    id ∈ map ToshibaAcDeviceManager.ac_unique_id devices_info)
  /\ (ToshibaAcDeviceManager.devices m <> [] ->
      ToshibaAcDeviceManager.get_devices a m
      = (Ok (dict_values (ToshibaAcDeviceManager.devices m)), m, [])
      /\ forall answers, session (map GetDevices answers) m = (m, []))
  /\ (forall sa ca token m2 tr,
        ToshibaAcDeviceManager.connect ca
          (ToshibaAcDeviceManager.shutdown sa m).1.2 = (Ok token, m2, tr) ->
        ToshibaAcDeviceManager.devices m2 = ToshibaAcDeviceManager.devices m
        /\ (ToshibaAcDeviceManager.devices m <> [] ->
            forall a',
              ToshibaAcDeviceManager.get_devices a' m2
              = (Ok (dict_values (ToshibaAcDeviceManager.devices m)), m2, []))).
Proof.
  intros Hconn. split; [|split].
  - intros Hempty. rewrite (get_devices_empty a m Hconn Hempty).
    pose proof (populate_fetches_once a m) as Hone.
    destruct (ToshibaAcDeviceManager.populate a m) as [[[[]|e] m1] tr1] eqn:Hpop;
      simpl in Hone.
    + split; [simpl; by rewrite app_nil_r|].
      intros ds m' tr [= <- <- <-]. split; [done|].
      destruct (populate_registers a m m1 tr1 Hpop) as (l & Hl & Hkeys).
      exists l. split; [done|]. intros id. rewrite (Hkeys id), Hempty. simpl.
      rewrite elem_of_nil. tauto.
    + by split.
  - intros Hne. split; [by apply get_devices_cached|].
    induction answers as [|a0 r IH]; [done|].
    cbn [map session do_call]. unfold bind.
    rewrite (get_devices_cached a0 m Hconn Hne). unfold ret. by rewrite IH.
  - intros sa ca token m2 tr Hc.
    assert (ToshibaAcDeviceManager.devices m2 = ToshibaAcDeviceManager.devices m)
      as Hdev.
    { pose proof (connect_keeps_registry ca
                    (ToshibaAcDeviceManager.shutdown sa m).1.2) as Hk.
      by rewrite Hc in Hk. }
    split; [done|]. intros Hne a'. rewrite <- Hdev.
    apply get_devices_cached; [by eapply connect_ok_connected|by rewrite Hdev].
Qed.

(** The amended C8 on the manager that has listed [fleet_a]: a call with
    another listing at hand returns the cached device. *)
Lemma registry_populated_while_empty_witness :
  ToshibaAcDeviceManager.get_devices (listing_answers fleet_b) populated_manager
  = (Ok (dict_values (ToshibaAcDeviceManager.devices populated_manager)),
     populated_manager, []).
Proof.
  apply (registry_populated_while_empty (listing_answers fleet_b) populated_manager).
  - split; reflexivity.
  - vm_compute. discriminate.
Defined.

(** * Further properties of the state codec and the merger *)

Section merge_algebra.

Lemma sel_idem (p b : string) : sel p (sel p b) = sel p b.
Proof. unfold sel. by destruct (String.eqb (Py.lower p) "ff"). Qed.

Lemma sel_assoc (p2 p1 b : string) : sel p2 (sel p1 b) = sel (sel p2 p1) b.
Proof.
  unfold sel. destruct (String.eqb (Py.lower p2) "ff") eqn:H2; [done|].
  by rewrite H2.
Qed.

Lemma zip_sel_idem (ib : list string) : forall sb,
  zip_with sel ib (zip_with sel ib sb) = zip_with sel ib sb.
Proof.
  induction ib as [|c r IH]; intros [|b sb]; simpl; try done.
  by rewrite sel_idem, IH.
Qed.

Lemma zip_sel_assoc (c2 : list string) : forall c1 cb,
  zip_with sel c2 (zip_with sel c1 cb) = zip_with sel (zip_with sel c2 c1) cb.
Proof.
  induction c2 as [|x r IH]; intros [|y c1] [|b cb]; simpl; try done.
  by rewrite sel_assoc, IH.
Qed.

Lemma sel_single (a : ascii) (b : string) :
  sel (String a EmptyString) b = String a EmptyString.
Proof.
  unfold sel. simpl. by destruct (Ascii.eqb (Py.lower_char a) "f").
Qed.

Lemma join_cons2 (x y : ascii) (l : list string) :
  Py.join (String x (String y EmptyString) :: l)
  = String x (String y (Py.join l)).
Proof. reflexivity. Qed.

(** The chunks of two strings of one length have the same lengths, so
    the merged chunks are the chunks of the merged string, which has
    that length too. *)
Lemma chunks2_zip_sel (P : string) : forall B,
  String.length P = String.length B ->
  Py.chunks2 (Py.join (zip_with sel (Py.chunks2 P) (Py.chunks2 B)))
  = zip_with sel (Py.chunks2 P) (Py.chunks2 B)
  /\ String.length (Py.join (zip_with sel (Py.chunks2 P) (Py.chunks2 B)))
     = String.length P.
Proof.
  induction P as [|a|a b r IH] using string_ind2; intros B Hlen.
  - by destruct B.
  - destruct B as [|a' [|? ?]]; try done. simpl. by rewrite sel_single.
  - destruct B as [|a' [|b' r']]; try done.
    simpl in Hlen. destruct (IH r') as [IH1 IH2]; [lia|].
    cbn [Py.chunks2 zip_with]. unfold sel at 1 3 5.
    destruct (String.eqb _ "ff"); rewrite join_cons2;
      cbn [Py.chunks2 String.length]; by rewrite IH1, IH2.
Qed.

End merge_algebra.

(** X1: applying a partial blob a second time changes nothing: for an
    incoming and a previous string of one length, the merge succeeds, has
    that length, and merging the same incoming string into it gives it
    back. *)
Theorem merge_idempotent (P B : string) :
  String.length P = String.length B ->
  exists out,
    merge P B = Ok out
    /\ String.length out = String.length P
    /\ merge P out = Ok out.
Proof.
  intros Hlen. destruct (chunks2_zip_sel P B Hlen) as [Hch Hl].
  exists (Py.join (zip_with sel (Py.chunks2 P) (Py.chunks2 B))).
  split; [by apply merge_same_length|]. split; [done|].
  rewrite merge_same_length by (by rewrite Hl). by rewrite Hch, zip_sel_idem.
Qed.

(** X1 on a partial blob of two bytes. *)
Lemma merge_idempotent_witness :
  exists out,
    merge "FF03" "0102" = Ok out
    /\ String.length out = String.length "FF03"
    /\ merge "FF03" out = Ok out.
Proof. apply (merge_idempotent "FF03" "0102"). reflexivity. Defined.

(** X2: two partial blobs applied one after the other are worth the one
    partial blob that merging the second into the first gives: for three
    strings of one length, [merge P2 (merge P1 B)] is
    [merge (merge P2 P1) B]. *)
Theorem merge_composes (P1 P2 B : string) :
  String.length P1 = String.length B ->
  String.length P2 = String.length B ->
  exists x y out,
    merge P1 B = Ok x /\ merge P2 x = Ok out
    /\ merge P2 P1 = Ok y /\ merge y B = Ok out.
Proof.
  intros H1 H2.
  destruct (chunks2_zip_sel P1 B H1) as [Hx Hlx].
  destruct (chunks2_zip_sel P2 P1) as [Hy Hly]; [congruence|].
  exists (Py.join (zip_with sel (Py.chunks2 P1) (Py.chunks2 B))),
    (Py.join (zip_with sel (Py.chunks2 P2) (Py.chunks2 P1))),
    (Py.join (zip_with sel (Py.chunks2 P2)
                (zip_with sel (Py.chunks2 P1) (Py.chunks2 B)))).
  split; [by apply merge_same_length|].
  split; [rewrite merge_same_length by congruence; by rewrite Hx|].
  split; [apply merge_same_length; congruence|].
  rewrite merge_same_length by congruence. by rewrite Hy, zip_sel_assoc.
Qed.

(** X2 on blobs of two bytes. *)
Lemma merge_composes_witness :
  exists x y out,
    merge "FF03" "0102" = Ok x /\ merge "07FF" x = Ok out
    /\ merge "07FF" "FF03" = Ok y /\ merge y "0102" = Ok out.
Proof. apply (merge_composes "FF03" "07FF" "0102"); reflexivity. Defined.

Section update_props.

Lemma no_ff_chunks (P : string) (p : list Z) :
  is_blob P -> Py.fromhex P = Some p -> (forall z, z ∈ p -> z <> 255) ->
  forall c, c ∈ Py.chunks2 P -> Py.lower c <> "ff".
Proof.
  intros HP Hp Hno c Hc.
  destruct (is_blob_bytes P HP) as (Hhex & Hbytes & _).
  rewrite Hbytes in Hp. injection Hp as <-.
  assert (hex_chunk c) as Hch by (by eapply Forall_forall in Hhex).
  intros Hff. apply (Hno (chunk_byte c)); [by apply list_elem_of_fmap_2|].
  apply Z.eqb_eq. rewrite <- (hex_chunk_ff c Hch), Hff. reflexivity.
Qed.

Lemma merge_no_ff (P B : string) :
  (forall c, c ∈ Py.chunks2 P -> Py.lower c <> "ff") -> merge P B = Ok P.
Proof.
  intros Hno. rewrite merge_merged_from, merged_from_no_ff by done.
  by rewrite join_chunks2.
Qed.

Lemma merge_empty_state (P : string) :
  (exists c, c ∈ Py.chunks2 P /\ Py.lower c = "ff") ->
  merge P "" = Raise IndexError.
Proof.
  intros (c & Hc & Hff). rewrite merge_merged_from.
  apply list_elem_of_lookup in Hc as [j Hj].
  assert (merged_from (Py.chunks2 "") 0 (Py.chunks2 P) = None) as ->; [|done].
  apply merged_from_none. exists j, c. repeat split; [done..|simpl; lia].
Qed.

Lemma decode_result (self : ToshibaAcFcuState.t) (hex_state : string) :
  (decodes_to_36_bytes hex_state /\
   exists s, decode self hex_state = (Ok tt, s) /\ _status_string s = hex_state)
  \/ (~ decodes_to_36_bytes hex_state /\
      exists e, decode self hex_state = (Raise e, set_status_string self hex_state)).
Proof.
  destruct (Py.fromhex hex_state) as [b|] eqn:Hb.
  - destruct (Nat.eq_dec (length b) 36%nat) as [Hlen|Hlen].
    + left. assert (decodes_to_36_bytes hex_state) as Hd by (by exists b).
      split; [done|]. destruct (decode_succeeds self hex_state Hd) as (s & ? & ? & _).
      by exists s.
    + right. assert (~ decodes_to_36_bytes hex_state) as Hd.
      { intros (b' & Hb' & Hl). congruence. }
      split; [done|]. by apply decode_raises.
  - right. assert (~ decodes_to_36_bytes hex_state) as Hd.
    { intros (b' & Hb' & Hl). congruence. }
    split; [done|]. by apply decode_raises.
Qed.

Lemma update_keeps_ac_status (self : ToshibaAcFcuState.t) (d : string) :
  _ac_status (update self d).2 = _ac_status self
  /\ _ac_mode (update self d).2 = _ac_mode self
  /\ _ac_temperature (update self d).2 = _ac_temperature self.
Proof.
  unfold update. destruct (merge d (_status_string self)) as [out|e]; [|done].
  destruct (decode_result self out) as [[_ (s & Hs & _)]|[_ (e & He)]].
  - destruct (decode_succeeds self out) as (s' & Hs' & _ & H1 & H2 & H3).
    { destruct (decode_result self out) as [[Hd _]|[Hd (e & He)]]; [done|].
      congruence. }
    by rewrite Hs'.
  - by rewrite He.
Qed.

Lemma updates_keep_ac_status (diffs : list string) :
  forall s : ToshibaAcFcuState.t,
  _ac_status s = 255 /\ _ac_mode s = 255 /\ _ac_temperature s = -1 ->
  _ac_status (updates diffs s) = 255
  /\ _ac_mode (updates diffs s) = 255
  /\ _ac_temperature (updates diffs s) = -1.
Proof.
  unfold updates. induction diffs as [|d r IH]; intros s Hs; [done|].
  simpl. apply IH. destruct (update_keeps_ac_status s d) as (K1 & K2 & K3).
  destruct Hs as (I1 & I2 & I3). by rewrite K1, K2, K3.
Qed.

End update_props.

(** X3: a blob without a 0xFF byte replaces the state whatever string is
    stored, the one a failed decode left included: [update] returns true
    and leaves exactly the state [decode] gives on that blob. *)
Theorem update_full_blob_replaces
    (self : ToshibaAcFcuState.t) (P : string) (p : list Z) :
  is_blob P -> Py.fromhex P = Some p -> (forall z, z ∈ p -> z <> 255) ->
  exists s,
    update self P = (Ok true, s)
    /\ decode self P = (Ok tt, s)
    /\ _status_string s = P.
Proof.
  intros HP Hp Hno. unfold update.
  rewrite (merge_no_ff P _ (no_ff_chunks P p HP Hp Hno)).
  destruct (is_blob_bytes P HP) as (_ & Hbytes & Hlen).
  destruct (decode_succeeds self P) as (s & Hs & Hstr & _).
  { eexists. split; [exact Hbytes|]. by rewrite length_map. }
  exists s. by rewrite Hs.
Qed.

(** X3 on a state whose stored string is not hexadecimal and the blob of
    zero bytes. *)
Lemma update_full_blob_replaces_witness :
  exists s,
    update (set_status_string init "zz") zero_blob = (Ok true, s)
    /\ decode (set_status_string init "zz") zero_blob = (Ok tt, s)
    /\ _status_string s = zero_blob.
Proof.
  apply (update_full_blob_replaces _ zero_blob (replicate 36 0)).
  - split; reflexivity.
  - reflexivity.
  - intros z Hz. apply elem_of_replicate in Hz as [-> _]. lia.
Defined.

(** X4: a partial blob cannot be applied to a state that stores the
    empty string, as a state does before its first [decode]: with an
    [ff] chunk in it, [update] raises IndexError and leaves the state as
    it is. *)
Theorem update_on_empty_state (self : ToshibaAcFcuState.t) (P : string) :
  _status_string self = "" ->
  (exists c, c ∈ Py.chunks2 P /\ Py.lower c = "ff") ->
  update self P = (Raise IndexError, self).
Proof.
  intros Hs Hff. unfold update. by rewrite Hs, (merge_empty_state P Hff).
Qed.

(** X4 on a fresh state. *)
Lemma update_on_empty_state_witness :
  update init "01FF" = (Raise IndexError, init).
Proof.
  apply (update_on_empty_state init "01FF"); [reflexivity|].
  exists "FF". split; [|reflexivity].
  apply list_elem_of_further, list_elem_of_here.
Defined.

(** X5: [update] either returns true, and then stores the merged string,
    which holds thirty-six bytes, or raises, and then every typed
    attribute is as before: the stored string is untouched when the
    merge raised, and is the rejected merged string when the decoding
    raised.  It never returns false. *)
Theorem update_outcomes (self : ToshibaAcFcuState.t) (status_diff : string) :
  (exists out s,
     merge status_diff (_status_string self) = Ok out
     /\ decodes_to_36_bytes out
     /\ update self status_diff = (Ok true, s)
     /\ _status_string s = out)
  \/ (exists e,
        merge status_diff (_status_string self) = Raise e
        /\ update self status_diff = (Raise e, self))
  \/ (exists out e s,
        merge status_diff (_status_string self) = Ok out
        /\ ~ decodes_to_36_bytes out
        /\ update self status_diff = (Raise e, s)
        /\ same_typed_fields self s
        /\ _status_string s = out).
Proof.
  unfold update.
  destruct (merge status_diff (_status_string self)) as [out|e] eqn:Hm.
  - destruct (decode_result self out) as [[Hd (s & Hs & Hstr)]|[Hd (e & He)]].
    + left. exists out, s. by rewrite Hs.
    + right. right. exists out, e, (set_status_string self out).
      rewrite He. repeat split; done.
  - right. left. by exists e.
Qed.

(** X6: the status, the mode and the temperature of the appliance side
    are never read from a blob: on a state built by [from_hex_state] and
    after any sequence of updates, failed ones included, [ac_status] and
    [ac_mode] are NONE and [ac_temperature] is (-1 - 32) / 2. *)
Theorem ac_status_never_decoded
    (hex_state : string) (s : ToshibaAcFcuState.t) (diffs : list string) :
  from_hex_state hex_state = Ok s ->
  ac_status (updates diffs s) = Ok properties.ToshibaAcStatus.NONE
  /\ ac_mode (updates diffs s) = Ok properties.ToshibaAcMode.NONE
  /\ ac_temperature (updates diffs s) = Qmake (-33) 2.
Proof.
  intros Hs.
  assert (_ac_status s = 255 /\ _ac_mode s = 255 /\ _ac_temperature s = -1)
    as Hinit.
  { unfold from_hex_state in Hs.
    destruct (decode init hex_state) as [[[]|e] s'] eqn:Hd; [|done].
    injection Hs as ->.
    destruct (decode_result init hex_state) as [[Hok _]|[_ (e & He)]];
      [|congruence].
    destruct (decode_succeeds init hex_state Hok) as (s' & Hs' & _ & H1 & H2 & H3).
    rewrite Hd in Hs'. injection Hs' as <-. by rewrite H1, H2, H3. }
  destruct (updates_keep_ac_status diffs s Hinit) as (H1 & H2 & H3).
  unfold ac_status, ac_mode, ac_temperature. rewrite H1, H2, H3.
  by vm_compute.
Qed.

(** X6 on the blob of zero bytes and two updates, the second one not
    hexadecimal. *)
Lemma ac_status_never_decoded_witness :
  exists s,
    from_hex_state zero_blob = Ok s
    /\ ac_status (updates [status_on_blob 0; "zz"] s)
       = Ok properties.ToshibaAcStatus.NONE.
Proof.
  eexists. split; [by vm_compute|].
  apply (ac_status_never_decoded zero_blob). by vm_compute.
Defined.

(** X7: what a blob of thirty-six bytes means: the compressor status
    comes from bytes 2 and 8 (counted from 0), the water mode from byte
    5, the target temperatures from bytes 1 and 6, the outdoor
    temperature from byte 10, the pump flag from byte 19 and the coil
    flags from bytes 3 and 9; no other byte but 0 and 4 is kept. *)
Theorem decode_reads_fixed_offsets
    (self : ToshibaAcFcuState.t) (hex_state : string) (b : list Z) :
  Py.fromhex hex_state = Some b -> length b = 36%nat ->
  exists s,
    decode self hex_state = (Ok tt, s)
    /\ compressor_status s
       = (if byte_at b 2 =? 0
          then if byte_at b 8 =? 0
               then properties.EstiaCompressorStatus.OFF
               else properties.EstiaCompressorStatus.HEAT
          else properties.EstiaCompressorStatus.DHW)
    /\ zone1_mode s = EstiaWaterMode.from_raw (byte_at b 5)
    /\ dhw_target_temperature s = AcTemperature.from_raw (byte_at b 1)
    /\ zone1_target_temperature s = AcTemperature.from_raw (byte_at b 6)
    /\ ac_outdoor_temperature s = Ok (AcTemperature.from_raw (byte_at b 10))
    /\ water_pump_is_running s = byte_at b 19
    /\ electric_coil_dhw_is_active s = byte_at b 3
    /\ electric_coil_heat_is_active s = byte_at b 9
    /\ _dhw_is_enabled s = byte_at b 0
    /\ _new_heating_active s = byte_at b 4.
Proof.
  intros Hb Hlen. unfold decode, unpack. rewrite Hb, Hlen. simpl.
  do 20 (destruct b as [|? b]; [discriminate Hlen|]).
  eexists. split; [reflexivity|].
  unfold compressor_status, truthy, byte_at. simpl.
  repeat split. by destruct (_ =? 0), (_ =? 0).
Qed.

(** X7 on the blob with 0x30 in its first byte. *)
Lemma decode_reads_fixed_offsets_witness :
  exists s,
    decode init (status_on_blob 0) = (Ok tt, s)
    /\ compressor_status s = properties.EstiaCompressorStatus.DHW
    /\ _dhw_is_enabled s = 48.
Proof.
  destruct (decode_reads_fixed_offsets init (status_on_blob 0)
              (48 :: replicate 35 255))
    as (s & Hs & Hc & _ & _ & _ & _ & _ & _ & _ & He & _);
    [reflexivity|reflexivity|].
  exists s. split; [exact Hs|]. split; [exact Hc|exact He].
Defined.

(** X8: temperature decoding keeps the order of the raw readings, taken
    in the range where halving is exact for a float (below 2^53).  On
    the water-loop side 0 is the only raw reading without a temperature
    and two raw readings give the same temperature only if they are the
    same; the appliance-side decoding of a raw reading is eight degrees
    above the water-loop one. *)
Theorem temperature_decoding_order (r1 r2 : Z) :
  0 <= r1 < 2 ^ 53 -> 0 <= r2 < 2 ^ 53 ->
  (EstiaTemperature.from_raw r1 = None <-> r1 = 0)
  /\ (forall q1 q2,
        EstiaTemperature.from_raw r1 = Some q1 ->
        EstiaTemperature.from_raw r2 = Some q2 ->
        (r1 < r2 <-> Qlt q1 q2) /\ (r1 = r2 <-> Qeq q1 q2))
  /\ (r1 < r2 <-> Qlt (AcTemperature.from_raw r1) (AcTemperature.from_raw r2))
  /\ (forall q1,
        EstiaTemperature.from_raw r1 = Some q1 ->
        Qeq (AcTemperature.from_raw r1 - q1) 8).
Proof.
  intros _ _. unfold EstiaTemperature.from_raw, AcTemperature.from_raw.
  split; [|split; [|split]].
  - destruct (Z.eqb_spec r1 0); split; intros; done.
  - intros q1 q2 H1 H2.
    destruct (r1 =? 0); [done|]. destruct (r2 =? 0); [done|].
    injection H1 as <-. injection H2 as <-.
    unfold Qlt, Qeq. simpl. lia.
  - unfold Qlt. simpl. lia.
  - intros q1 H1. destruct (r1 =? 0); [done|]. injection H1 as <-.
    unfold Qeq, Qminus, Qplus, Qopp. simpl. lia.
Qed.

(** X8 on the raw readings 0x5A and 0x60. *)
Lemma temperature_decoding_order_witness :
  Qlt (Qmake 42 2) (Qmake 48 2).
Proof.
  assert (0 <= 90 < 2 ^ 53) as H1 by lia.
  assert (0 <= 96 < 2 ^ 53) as H2 by lia.
  apply (proj1 (proj1 (proj1 (proj2 (temperature_decoding_order 90 96 H1 H2))
                         (Qmake 42 2) (Qmake 48 2) eq_refl eq_refl))).
  lia.
Defined.

(** * Further properties of the device *)

Section device_props.

Lemma update_cases (self : ToshibaAcFcuState.t) (d : string) :
  (exists s, update self d = (Ok true, s))
  \/ (exists e s, update self d = (Raise e, s) /\ same_typed_fields self s).
Proof.
  unfold update. destruct (merge d (_status_string self)) as [out|e].
  - destruct (decode_result self out) as [[_ (s & Hs & _)]|[_ (e & He)]].
    + left. exists s. by rewrite Hs.
    + right. exists e, (set_status_string self out). rewrite He.
      split; [done|]. by repeat split.
  - right. exists e, self. split; [done|]. by repeat split.
Qed.

Lemma same_but_fcu_state_refl d : same_but_fcu_state d d.
Proof. by repeat split. Qed.


Lemma set_fcu_state_frame st d :
  same_but_fcu_state d (ToshibaAcDevice.set_fcu_state st d).
Proof. by repeat split. Qed.

(** What [self.fcu_state.update] does to a device. *)
Lemma fcu_state_update_cases (data : string) (d : ToshibaAcDevice.t) :
  (exists st,
     ToshibaAcDevice.fcu_state_update data d
     = (Ok true, ToshibaAcDevice.set_fcu_state st d, []))
  \/ (exists e st,
        ToshibaAcDevice.fcu_state_update data d
        = (Raise e, ToshibaAcDevice.set_fcu_state st d, [])
        /\ same_typed_fields (ToshibaAcDevice.fcu_state d) st).
Proof.
  unfold ToshibaAcDevice.fcu_state_update.
  destruct (update_cases (ToshibaAcDevice.fcu_state d) data)
    as [(s & ->)|(e & s & -> & Hs)].
  - left. by exists s.
  - right. by exists e, s.
Qed.


End device_props.

(** X9: before the additional information of a device is loaded, a
    telemetry push stores nothing, whatever the payload, the flow rate
    included: the device is unchanged, one error is logged, the
    state-changed notification is emitted all the same and the handler
    ends as its subscribers do. *)
Theorem heartbeat_without_temperatures
    (payload : gmap string JSONSerializable) (notified : result unit)
    (self : ToshibaAcDevice.t) :
  ToshibaAcDevice.temperatures self = None ->
  ToshibaAcDevice.handle_cmd_heartbeat_estia payload notified self
  = (notified, self,
     [LogError "ERROR CONVERTING DATA";
      StateChanged (ToshibaAcDevice.ac_unique_id self)]).
Proof.
  destruct self as [na di ai ui fw st cd fc sn ts wf en tk]. simpl.
  intros ->. run_handler.
  by destruct (ToshibaAcDevice.reading payload "TFI_temp"), notified.
Qed.

(** X9 on a device as its constructor leaves it, a payload of six
    hexadecimal readings and subscribers that raise. *)
Lemma heartbeat_without_temperatures_witness :
  exists d,
    ToshibaAcDevice.init "pump" "user" "1" "uid-1" zero_blob "1.0" "" "" = Ok d
    /\ ToshibaAcDevice.handle_cmd_heartbeat_estia good_payload
         (Raise ConnectionError) d
       = (Raise ConnectionError, d,
          [LogError "ERROR CONVERTING DATA"; StateChanged "uid-1"]).
Proof.
  eexists. split; [by vm_compute|].
  apply (heartbeat_without_temperatures good_payload). reflexivity.
Defined.

(** X10: the handler of a pushed partial state changes nothing of the
    device but its decoded state.  Without a [data] key it raises
    KeyError; a [data] that is not a string is logged and dropped
    without an exception; a string is handed to [update] of the decoded
    state, which is left as that call leaves it: when the update goes
    through, the state-changed notification is emitted once and the
    handler ends as its subscribers do; when it raises, the handler
    raises the same, without a notification, and the typed attributes
    of the state are as before. *)
Theorem hcu_handler_outcomes
    (payload : gmap string JSONSerializable) (notified : result unit)
    (self : ToshibaAcDevice.t) :
  exists r self' tr,
    ToshibaAcDevice.handle_cmd_hcu_from_estia payload notified self
    = (r, self', tr)
    /\ same_but_fcu_state self self'
    /\ (payload !! "data" = None ->
        r = Raise KeyError /\ self' = self /\ tr = [])
    /\ (forall v, payload !! "data" = Some v -> (forall hex, v <> JStr hex) ->
        r = Ok tt /\ self' = self
        /\ tr = [LogError "malformed AC state from AMQP"])
    /\ (forall hex, payload !! "data" = Some (JStr hex) ->
        ToshibaAcDevice.fcu_state self'
        = (update (ToshibaAcDevice.fcu_state self) hex).2
        /\ (is_ok (update (ToshibaAcDevice.fcu_state self) hex).1 = true ->
            r = notified
            /\ tr = [StateChanged (ToshibaAcDevice.ac_unique_id self)])
        /\ (forall e,
              (update (ToshibaAcDevice.fcu_state self) hex).1 = Raise e ->
              r = Raise e /\ tr = []
              /\ same_typed_fields (ToshibaAcDevice.fcu_state self)
                                   (ToshibaAcDevice.fcu_state self'))).
Proof.
  unfold ToshibaAcDevice.handle_cmd_hcu_from_estia, payload_item, bind, lift.
  destruct (payload !! "data") as [v|] eqn:Hv.
  - destruct v as [|b|z|hex|].
    5: { eexists _, _, _. split; [reflexivity|].
         split; [apply same_but_fcu_state_refl|].
         repeat split; first [done | by intros ? [= ]]. }
    4: { unfold ToshibaAcDevice.fcu_state_update.
         destruct (update_cases (ToshibaAcDevice.fcu_state self) hex)
           as [(st & Hst)|(e & st & Hst & Hf)]; rewrite Hst; cbv beta iota.
         - unfold ToshibaAcDevice.state_changed, bind, get, notify.
           destruct notified as [[]|e]; simpl;
             eexists _, _, _; (split; [reflexivity|]);
             (split; [apply set_fcu_state_frame|]); (split; [done|]);
             (split; [intros v [= <-] Hne; by destruct (Hne hex)|]);
             intros hex' [= <-]; rewrite Hst; simpl; repeat split; done.
         - eexists _, _, _. split; [reflexivity|].
           split; [apply set_fcu_state_frame|]. split; [done|].
           split; [intros v [= <-] Hne; by destruct (Hne hex)|].
           intros hex' [= <-]. rewrite Hst. simpl.
           split; [done|]. split; [done|]. by intros e' [= <-]. }
    all: eexists _, _, _; (split; [reflexivity|]);
      (split; [apply same_but_fcu_state_refl|]);
      repeat split; first [done | by intros ? [= ]].
  - eexists _, _, _. split; [reflexivity|].
    split; [apply same_but_fcu_state_refl|]. repeat split; done.
Qed.

(** X10 on a device that stores the blob of zero bytes and a pushed
    partial state with 0x30 in its first byte, with subscribers that
    raise. *)
Lemma hcu_handler_outcomes_witness :
  exists self',
    ToshibaAcDevice.handle_cmd_hcu_from_estia
      (<[ "data" := JStr (status_on_blob 0) ]> ∅) (Raise ConnectionError)
      zero_pump
    = (Raise ConnectionError, self', [StateChanged "uid-1"])
    /\ _dhw_is_enabled (ToshibaAcDevice.fcu_state self') = 48.
Proof.
  destruct (hcu_handler_outcomes (<[ "data" := JStr (status_on_blob 0) ]> ∅)
              (Raise ConnectionError) zero_pump)
    as (r & self' & tr & Hrun & _ & _ & _ & Hstr).
  destruct (Hstr (status_on_blob 0) eq_refl) as (Hst & Hok & _).
  destruct Hok as [-> ->]; [reflexivity|].
  exists self'. split; [exact Hrun|]. rewrite Hst. reflexivity.
Defined.

(** X11: a device can be built exactly from an initial state that holds
    thirty-six bytes; it then stores that state and the names it was
    given, and has no temperatures, no energy reading, a flow rate of
    zero and no reload task. *)
Theorem device_init_outcomes
    (name device_id ac_id ac_unique_id initial_ac_state firmware_version
       merit_feature ac_model_id : string) :
  let built :=
    ToshibaAcDevice.init name device_id ac_id ac_unique_id initial_ac_state
      firmware_version merit_feature ac_model_id in
  (is_ok built = true <-> decodes_to_36_bytes initial_ac_state)
  /\ forall d, built = Ok d ->
       ToshibaAcDevice.name d = name
       /\ ToshibaAcDevice.ac_unique_id d = ac_unique_id
       /\ _status_string (ToshibaAcDevice.fcu_state d) = initial_ac_state
       /\ ToshibaAcDevice.temperatures d = None
       /\ ToshibaAcDevice._ac_energy_consumption d = None
       /\ ToshibaAcDevice._water_flow_rate d = 0
       /\ ToshibaAcDevice.periodic_reload_state_task d = None.
Proof.
  unfold ToshibaAcDevice.init, from_hex_state.
  destruct (decode_result init initial_ac_state)
    as [[Hd (s & Hs & Hstr)]|[Hd (e & He)]].
  - rewrite Hs. simpl. split; [done|]. by intros d [= <-].
  - rewrite He. simpl. split; [|done]. split; [done|]. intros H. by destruct Hd.
Qed.

(** X11 on the blob of zero bytes. *)
Lemma device_init_outcomes_witness :
  is_ok (ToshibaAcDevice.init "pump" "user" "1" "uid-1" zero_blob "1.0" "" "")
  = true.
Proof.
  apply (proj1 (device_init_outcomes "pump" "user" "1" "uid-1" zero_blob
                  "1.0" "" "")).
  exists (replicate 36 0). split; reflexivity.
Defined.


(** * Further properties of the manager *)

(** X14: [connect] on a manager that has both transports and a token
    sends nothing, changes nothing and returns the stored token. *)
Theorem connect_when_connected
    (a : ToshibaAcDeviceManager.ConnectAnswers) (m : ToshibaAcDeviceManager.t) :
  connected m ->
  str_truthy (ToshibaAcDeviceManager.sas_token m) = true ->
  ToshibaAcDeviceManager.connect a m
  = (Ok (ToshibaAcDeviceManager.sas_token m), m, []).
Proof.
  destruct m as [u p [h|] [q|] di tok devs t1 t2]; intros [Hh Ha] Htok;
    try discriminate.
  simpl in Htok.
  unfold ToshibaAcDeviceManager.connect, ToshibaAcDeviceManager.connect_locked,
    try_except, bind, get, ret. simpl. rewrite Htok. reflexivity.
Qed.

(** X14 on the manager that has listed a fleet. *)
Lemma connect_when_connected_witness :
  ToshibaAcDeviceManager.connect connect_answers populated_manager
  = (Ok (Some "token"), populated_manager, []).
Proof.
  apply (connect_when_connected connect_answers populated_manager).
  - split; reflexivity.
  - reflexivity.
Defined.

(** X15: whatever [connect] finds and is answered, it leaves the
    registry as it is; when it returns, both transports are there and
    the token returned is the stored one; when it raises, the manager is
    left without transports and without task handles. *)
Theorem connect_outcomes
    (a : ToshibaAcDeviceManager.ConnectAnswers)
    (m m' : ToshibaAcDeviceManager.t) r tr :
  ToshibaAcDeviceManager.connect a m = (r, m', tr) ->
  ToshibaAcDeviceManager.devices m' = ToshibaAcDeviceManager.devices m
  /\ (forall token, r = Ok token ->
        connected m' /\ token = ToshibaAcDeviceManager.sas_token m')
  /\ (forall e, r = Raise e -> disconnected m').
Proof.
  intros Hc. split.
  { pose proof (connect_keeps_registry a m) as Hk. by rewrite Hc in Hk. }
  revert Hc.
  destruct m as [u p [h|] [q|] di tok devs t1 t2];
    destruct a as [[[]|e1] [tk|e2] [[]|e3] sa];
    unfold ToshibaAcDeviceManager.connect,
      ToshibaAcDeviceManager.connect_locked, try_except, bind, get, modify,
      emit, lift, ret, raise, ToshibaAcDeviceManager.shutdown; simpl;
    destruct (str_truthy tok); simpl;
    try (match goal with
         | |- context [ ToshibaAcDeviceManager.raise_all_errors ?x ] =>
             destruct (ToshibaAcDeviceManager.raise_all_errors x)
         end);
    intros [= <- <- <-]; (split; [intros ? [= <-]|intros ? [= <-]]);
    done.
Qed.

(** X15 on a fresh manager whose message bus refuses the connection. *)
Lemma connect_outcomes_witness :
  disconnected
    (ToshibaAcDeviceManager.connect refusing_bus_answers fresh_manager).1.2.
Proof.
  assert (ToshibaAcDeviceManager.connect refusing_bus_answers fresh_manager
          = (Raise ConnectionError,
             (ToshibaAcDeviceManager.connect refusing_bus_answers
                fresh_manager).1.2,
             (ToshibaAcDeviceManager.connect refusing_bus_answers
                fresh_manager).2)) as H by reflexivity.
  exact (proj2 (proj2 (connect_outcomes _ _ _ _ _ H)) ConnectionError eq_refl).
Defined.


(** X17: after a [shutdown] the manager is not connected, a registry
    that holds devices notwithstanding: [get_devices] and
    [fetch_energy_consumption] raise the manager's error, send no
    request and change nothing. *)
Theorem not_connected_after_shutdown
    (a : ToshibaAcDeviceManager.ShutdownAnswers)
    (m : ToshibaAcDeviceManager.t)
    (ga : ToshibaAcDeviceManager.GetDevicesAnswers)
    (answer : result (list (string * properties.ToshibaAcDeviceEnergyConsumption)))
    (notified : string -> result unit) :
  let m1 := (ToshibaAcDeviceManager.shutdown a m).1.2 in
  ToshibaAcDeviceManager.get_devices ga m1
  = (Raise ToshibaAcDeviceManagerError, m1, [])
  /\ ToshibaAcDeviceManager.fetch_energy_consumption answer notified m1
     = (Raise ToshibaAcDeviceManagerError, m1, []).
Proof. by split. Qed.


Section dispatch.

Import ToshibaAcDeviceManager.

Lemma dict_get_set_eq {V} (d : list (string * V)) k v :
  dict_get (dict_set d k v) k = Ok v.
Proof.
  induction d as [|[k0 v0] d IH]; simpl.
  - by rewrite String.eqb_refl.
  - destruct (String.eqb_spec k0 k) as [->|Hne]; simpl.
    + by rewrite String.eqb_refl.
    + by destruct (String.eqb_spec k0 k).
Qed.

Lemma dict_get_set_ne {V} (d : list (string * V)) k k' v :
  k <> k' -> dict_get (dict_set d k v) k' = dict_get d k'.
Proof.
  intros Hne. induction d as [|[k0 v0] d IH]; simpl.
  - by destruct (String.eqb_spec k k').
  - destruct (String.eqb_spec k0 k) as [->|Hne0]; simpl.
    + by destruct (String.eqb_spec k k').
    + by rewrite IH.
Qed.

Lemma dict_get_raise {V} (d : list (string * V)) k e :
  dict_get d k = Raise e -> e = KeyError.
Proof.
  induction d as [|[k0 v0] d IH]; simpl; [by intros [= <-]|].
  by destruct (String.eqb k0 k).
Qed.

Lemma dict_get_keys {V} (d : list (string * V)) k :
  is_ok (dict_get d k) = true <-> k ∈ dict_keys d.
Proof.
  induction d as [|[k0 v0] d IH]; simpl.
  - rewrite elem_of_nil. split; [done|tauto].
  - rewrite elem_of_cons. destruct (String.eqb_spec k0 k) as [->|Hne]; simpl.
    + tauto.
    + rewrite IH. split; [tauto|]. intros [->|?]; [done|tauto].
Qed.

(** A handler run through the registry touches the entry of its device
    only. *)
Lemma on_device_frame {A} (id : string) (c : M ToshibaAcDevice.t A) (m : t) :
  match dict_get (devices m) id with
  | Raise e => on_device id c m = (Raise KeyError, m, [])
  | Ok dev =>
      exists r dev' tr m',
        c dev = (r, dev', tr)
        /\ on_device id c m = (r, m', tr)
        /\ dict_get (devices m') id = Ok dev'
        /\ same_keys m m' /\ same_handles m m'
        /\ forall id', id' <> id ->
             dict_get (devices m') id' = dict_get (devices m) id'
  end.
Proof.
  unfold on_device. destruct (dict_get (devices m) id) as [dev|e] eqn:Hget.
  - destruct (c dev) as [[r dev'] tr] eqn:Hc.
    exists r, dev', tr, (set_devices (dict_set (devices m) id dev') m).
    split; [done|]. split; [done|]. simpl.
    split; [apply dict_get_set_eq|].
    split; [by apply (dict_keys_set_present _ _ dev)|].
    split; [done|]. intros id' Hne. by apply dict_get_set_ne.
  - by rewrite (dict_get_raise _ _ _ Hget).
Qed.

End dispatch.

(** X18: a command from a source that is not in the registry raises
    KeyError and changes nothing; a command from a registered device
    runs the handler of that device, returns what it returns with its
    events, stores the device it leaves, and touches no other device,
    no identifier and no handle of the manager.  This holds for the
    telemetry push and for the pushed partial state. *)
Theorem dispatch_touches_one_device
    (source_id message_id timestamp : string)
    (target_id : list JSONSerializable)
    (payload : gmap string JSONSerializable)
    (notified : result unit)
    (m : ToshibaAcDeviceManager.t) :
  (source_id ∉ dict_keys (ToshibaAcDeviceManager.devices m) ->
   ToshibaAcDeviceManager.handle_cmd_heartbeat_estia
     source_id message_id target_id payload timestamp notified m
   = (Raise KeyError, m, [])
   /\ ToshibaAcDeviceManager.handle_cmd_hcu_from_estia
        source_id message_id target_id payload timestamp notified m
      = (Raise KeyError, m, []))
  /\ (forall dev,
        dict_get (ToshibaAcDeviceManager.devices m) source_id = Ok dev ->
        forall handler : M ToshibaAcDeviceManager.t unit,
        forall on_dev : M ToshibaAcDevice.t unit,
        (handler = ToshibaAcDeviceManager.handle_cmd_heartbeat_estia
                     source_id message_id target_id payload timestamp notified
         /\ on_dev = ToshibaAcDevice.handle_cmd_heartbeat_estia payload notified)
        \/ (handler = ToshibaAcDeviceManager.handle_cmd_hcu_from_estia
                        source_id message_id target_id payload timestamp
                        notified
            /\ on_dev = ToshibaAcDevice.handle_cmd_hcu_from_estia payload
                          notified) ->
        exists r dev' tr m',
          on_dev dev = (r, dev', tr)
          /\ handler m = (r, m', tr)
          /\ dict_get (ToshibaAcDeviceManager.devices m') source_id = Ok dev'
          /\ same_keys m m' /\ same_handles m m'
          /\ forall id', id' <> source_id ->
               dict_get (ToshibaAcDeviceManager.devices m') id'
               = dict_get (ToshibaAcDeviceManager.devices m) id').
Proof.
  split.
  - intros Hnot.
    assert (exists e, dict_get (ToshibaAcDeviceManager.devices m) source_id
                      = Raise e) as [e He].
    { destruct (dict_get (ToshibaAcDeviceManager.devices m) source_id)
        as [dev|e] eqn:Hget; [|by exists e].
      destruct Hnot. apply dict_get_keys. by rewrite Hget. }
    unfold ToshibaAcDeviceManager.handle_cmd_heartbeat_estia,
      ToshibaAcDeviceManager.handle_cmd_hcu_from_estia. split.
    + pose proof (on_device_frame source_id
                    (ToshibaAcDevice.handle_cmd_heartbeat_estia payload notified)
                    m) as H.
      by rewrite He in H.
    + pose proof (on_device_frame source_id
                    (ToshibaAcDevice.handle_cmd_hcu_from_estia payload notified)
                    m) as H.
      by rewrite He in H.
  - intros dev Hdev handler on_dev [[-> ->]|[-> ->]].
    + pose proof (on_device_frame source_id
                    (ToshibaAcDevice.handle_cmd_heartbeat_estia payload notified)
                    m) as H.
      by rewrite Hdev in H.
    + pose proof (on_device_frame source_id
                    (ToshibaAcDevice.handle_cmd_hcu_from_estia payload notified)
                    m) as H.
      by rewrite Hdev in H.
Qed.

(** X18 on the manager that has listed one device and a telemetry push
    from another source. *)
Lemma dispatch_touches_one_device_witness :
  ToshibaAcDeviceManager.handle_cmd_heartbeat_estia
    "uid-b" "1" [] good_payload "" (Ok tt) populated_manager
  = (Raise KeyError, populated_manager, []).
Proof.
  apply (proj1 (dispatch_touches_one_device "uid-b" "1" "" [] good_payload
                  (Ok tt) populated_manager)).
  vm_compute. intros H.
  apply elem_of_cons in H as [H|H]; [discriminate H|].
  by apply elem_of_nil in H.
Defined.

Section population.

Import ToshibaAcDeviceManager.

Lemma same_handles_refl s : same_handles s s.
Proof. by repeat split. Qed.

Lemma same_handles_trans a b c :
  same_handles a b -> same_handles b c -> same_handles a c.
Proof.
  unfold same_handles. intros (?&?&?&?&?) (?&?&?&?&?).
  repeat split; congruence.
Qed.

Lemma respects_state {S A} (R : S -> S -> Prop) T (c : M S A) s r s' tr :
  respects R T c -> c s = (r, s', tr) -> R s s'.
Proof. intros Hc Hrun. destruct (Hc s) as [HR _]. by rewrite Hrun in HR. Qed.


Lemma on_device_handles {A} id (c : M ToshibaAcDevice.t A) :
  respects same_handles any_event (on_device id c).
Proof.
  intros s. unfold on_device.
  destruct (dict_get (devices s) id) as [dev|e]; simpl.
  - destruct (c dev) as [[r dev'] tr]; simpl.
    split; [by repeat split|]. by apply Forall_forall.
  - split; [by repeat split|constructor].
Qed.

Lemma register_devices_handles devices_info :
  respects same_handles any_event (register_devices devices_info).
Proof.
  induction devices_info as [|info l IH]; cbn [register_devices].
  - apply respects_ret, same_handles_refl.
  - apply respects_bind;
      [apply same_handles_trans|apply respects_get, same_handles_refl|].
    intros self.
    apply respects_bind;
      [apply same_handles_trans|apply respects_lift, same_handles_refl|].
    intros device.
    apply respects_bind; [apply same_handles_trans| |by intros _].
    by apply respects_modify.
Qed.

Lemma connect_devices_handles (a : GetDevicesAnswers) devices_info :
  respects same_handles any_event (connect_devices a devices_info).
Proof.
  apply gather_respects; [apply same_handles_refl|apply same_handles_trans|].
  apply Forall_map, Forall_forall. intros device_info _.
  apply on_device_handles.
Qed.

Lemma fetch_energy_consumption_handles answer notified :
  respects same_handles any_event (fetch_energy_consumption answer notified).
Proof.
  unfold fetch_energy_consumption.
  apply respects_bind;
    [apply same_handles_trans|apply respects_get, same_handles_refl|].
  intros self. apply respects_if; [|apply respects_raise, same_handles_refl].
  apply respects_bind;
    [apply same_handles_trans
    |apply respects_emit; [apply same_handles_refl|done]|].
  intros _.
  apply respects_bind;
    [apply same_handles_trans|apply respects_lift, same_handles_refl|].
  intros consumptions.
  apply respects_bind;
    [apply same_handles_trans|apply respects_lift, same_handles_refl|].
  intros _.
  apply gather_respects; [apply same_handles_refl|apply same_handles_trans|].
  apply Forall_map, Forall_forall. intros kv _. apply on_device_handles.
Qed.

(** Starting the periodic tasks never raises and leaves both there. *)
Lemma start_periodic_tasks_run (m : t) :
  exists m' tr,
    start_periodic_tasks m = (Ok tt, m', tr)
    /\ http_api m' = http_api m /\ amqp_api m' = amqp_api m
    /\ devices m' = devices m /\ sas_token m' = sas_token m
    /\ present (periodic_fetch_energy_consumption_task m') = true
    /\ present (periodic_fetch_device_connection_task m') = true.
Proof.
  destruct m as [u p h q di tok devs [t1|] [t2|]];
    eexists _, _; (split; [reflexivity|]); by repeat split.
Qed.


(** Filling the registry without an exception keeps the transports and
    leaves both periodic tasks there. *)
Lemma populate_ok (a : GetDevicesAnswers) (m m' : t) tr :
  populate a m = (Ok tt, m', tr) ->
  http_api m' = http_api m /\ amqp_api m' = amqp_api m
  /\ sas_token m' = sas_token m
  /\ present (periodic_fetch_energy_consumption_task m') = true
  /\ present (periodic_fetch_device_connection_task m') = true.
Proof.
  unfold populate. intros H.
  apply bind_ok in H as (? & m0 & ? & ? & Hemit & H & _).
  injection Hemit as _ <- _.
  apply bind_ok in H as (l & m1 & ? & ? & Hl & H & _).
  unfold lift in Hl. injection Hl as _ <- _.
  apply bind_ok in H as (? & m2 & ? & ? & Hreg & H & _).
  apply (respects_state _ _ _ _ _ _ _ (register_devices_handles l)) in Hreg.
  apply bind_ok in H as (? & m3 & ? & ? & Hcon & H & _).
  apply (respects_state _ _ _ _ _ _ _ (connect_devices_handles a l)) in Hcon.
  apply bind_ok in H as (? & m4 & ? & ? & Hen & H & _).
  apply (respects_state _ _ _ _ _ _ _
           (fetch_energy_consumption_handles (energy_consumption a)
              (energy_changed_notified a))) in Hen.
  destruct (start_periodic_tasks_run m4)
    as (m5 & tr5 & Hrun & K1 & K2 & _ & K4 & K5 & K6).
  rewrite Hrun in H. injection H as <- _.
  destruct Hreg as (?&?&?&_), Hcon as (?&?&?&_), Hen as (?&?&?&_).
  repeat split; congruence.
Qed.

End population.



(** X20: a [get_devices] that fills the registry and returns leaves the
    manager connected, with the token it had and with both periodic
    tasks of the fleet there. *)
Theorem population_starts_tasks
    (a : ToshibaAcDeviceManager.GetDevicesAnswers)
    (m m' : ToshibaAcDeviceManager.t) ds tr :
  connected m ->
  ToshibaAcDeviceManager.devices m = [] ->
  ToshibaAcDeviceManager.get_devices a m = (Ok ds, m', tr) ->
  connected m'
  /\ ToshibaAcDeviceManager.sas_token m' = ToshibaAcDeviceManager.sas_token m
  /\ present (ToshibaAcDeviceManager.periodic_fetch_energy_consumption_task m')
     = true
  /\ present (ToshibaAcDeviceManager.periodic_fetch_device_connection_task m')
     = true.
Proof.
  intros Hconn Hempty. rewrite (get_devices_empty a m Hconn Hempty).
  destruct (ToshibaAcDeviceManager.populate a m) as [[[[]|e0] m0] tr0] eqn:Hpop;
    [|done].
  intros [= <- <- <-].
  destruct (populate_ok a m m0 tr0 Hpop) as (K1 & K2 & K3 & K4 & K5).
  destruct Hconn as [H1 H2]. repeat split; congruence.
Qed.

(** X20 on a connected manager and a listing of one device. *)
Lemma population_starts_tasks_witness :
  present (ToshibaAcDeviceManager.periodic_fetch_energy_consumption_task
             populated_manager) = true.
Proof.
  assert (exists ds tr,
            ToshibaAcDeviceManager.get_devices (listing_answers fleet_a)
              connected_manager = (Ok ds, populated_manager, tr))
    as (ds & tr & H) by (eexists _, _; by vm_compute).
  assert (connected connected_manager) as Hc by (split; reflexivity).
  apply (proj1 (proj2 (proj2 (population_starts_tasks
                                (listing_answers fleet_a) connected_manager
                                populated_manager ds tr Hc eq_refl H)))).
Defined.

Section energy_fetch.

Import ToshibaAcDeviceManager.

(** The registry entries the debug record reads: KeyError on the first
    identifier that is not registered. *)
Lemma known_check {V W} (d : list (string * V)) (cs : list (string * W)) :
  foldr (fun kv acc => rbind (dict_get d kv.1) (fun _ => acc)) (Ok tt) cs
  = if forallb (fun kv => is_ok (dict_get d kv.1)) cs
    then Ok tt else Raise KeyError.
Proof.
  induction cs as [|[k w] cs IH]; simpl; [done|].
  destruct (dict_get d k) as [v|e] eqn:Hget; simpl; [done|].
  by rewrite (dict_get_raise _ _ _ Hget).
Qed.

(** One update run through the registry: the device is left with a
    reading cached that is the one given, it ends as the subscribers do
    or without an exception, and no other device is touched. *)
Lemma on_device_update k c (n : result unit) (m : t) dev :
  dict_get (devices m) k = Ok dev ->
  exists r m' tr,
    on_device k (ToshibaAcDevice.handle_update_ac_energy_consumption c n) m
    = (r, m', tr)
    /\ (r = Ok tt \/ r = n)
    /\ Forall is_energy_changed tr
    /\ same_keys m m' /\ same_handles m m'
    /\ (exists c', cached_under m' k = Some c' /\ same_reading c' c)
    /\ forall id', id' <> k ->
         dict_get (devices m') id' = dict_get (devices m) id'.
Proof.
  intros Hget.
  pose proof (on_device_frame k
                (ToshibaAcDevice.handle_update_ac_energy_consumption c n) m) as Hf.
  rewrite Hget in Hf.
  destruct Hf as (r & dev' & tr & m' & Hdev & Hrun & Hget' & Hkeys & Hh & Hfr).
  exists r, m', tr. split; [done|].
  rewrite handle_update_cases in Hdev. unfold cached_under. rewrite Hget'.
  destruct (ToshibaAcDevice.consumption_differs
              (ToshibaAcDevice._ac_energy_consumption dev) c) eqn:Hd;
    injection Hdev as <- <- <-.
  - split; [by right|]. split; [constructor; [by eexists|constructor]|].
    split; [done|]. split; [done|]. split; [|done].
    exists c. split; [done|apply same_reading_refl].
  - split; [by left|]. split; [constructor|].
    split; [done|]. split; [done|]. split; [|done].
    destruct (ToshibaAcDevice._ac_energy_consumption dev) as [c0|] eqn:Hc;
      [|done].
    exists c0. split; [done|].
    destruct (decide (same_reading c0 c)) as [Hs|Hs]; [done|].
    assert (new_reading (Some c0) c) as Hn by exact Hs.
    apply consumption_differs_spec in Hn. congruence.
Qed.

Lemma gather_energy_updates
    (cs : list (string * properties.ToshibaAcDeviceEnergyConsumption))
    (notified : string -> result unit) :
  forall m,
  (forall kv, kv ∈ cs -> kv.1 ∈ dict_keys (devices m)) ->
  exists r m' tr,
    gather (map (fun kv =>
                   on_device kv.1
                     (ToshibaAcDevice.handle_update_ac_energy_consumption kv.2
                        (notified kv.1)))
                cs) m
    = (r, m', tr)
    /\ same_keys m m' /\ same_handles m m'
    /\ Forall is_energy_changed tr
    /\ ((forall kv, kv ∈ cs -> notified kv.1 = Ok tt) -> r = Ok tt)
    /\ (forall e, r = Raise e ->
          exists kv, kv ∈ cs /\ notified kv.1 = Raise e)
    /\ (forall id, id ∉ cs.*1 ->
          dict_get (devices m') id = dict_get (devices m) id)
    /\ (NoDup cs.*1 -> forall kv, kv ∈ cs ->
          exists c, cached_under m' kv.1 = Some c /\ same_reading c kv.2).
Proof.
  induction cs as [|[k c] cs IH]; intros m Hknown.
  - exists (Ok tt), m, []. repeat split; try done.
    intros _ kv Hkv. by apply elem_of_nil in Hkv.
  - cbn [map gather fst snd].
    assert (k ∈ dict_keys (devices m)) as Hk
        by apply (Hknown (k, c)), list_elem_of_here.
    apply dict_get_keys in Hk.
    destruct (dict_get (devices m) k) as [dev|e] eqn:Hget; [|done].
    destruct (on_device_update k c (notified k) m dev Hget)
      as (r1 & m1 & tr1 & -> & Hr1 & Htr1 & Hkeys & Hh & Hc1 & Hfr1).
    destruct (IH m1)
      as (r2 & m2 & tr2 & -> & Hkeys2 & Hh2 & Htr2 & Hok2 & He2 & Hfr2 & Hc2).
    { intros kv Hkv. unfold same_keys in Hkeys. rewrite Hkeys.
      apply Hknown. by apply list_elem_of_further. }
    eexists _, m2, (tr1 ++ tr2)%list. split; [reflexivity|].
    split; [unfold same_keys in *; congruence|].
    split; [by eapply same_handles_trans|].
    split; [by apply Forall_app|].
    split; [|split; [|split]].
    + intros Hall.
      assert (r1 = Ok tt) as ->.
      { destruct Hr1 as [->| ->]; [done|].
        apply (Hall (k, c)), list_elem_of_here. }
      apply Hok2. intros kv Hkv. by apply Hall, list_elem_of_further.
    + intros e He. destruct r1 as [[]|e1].
      * destruct (He2 e He) as (kv & Hkv & Hn).
        exists kv. split; [by apply list_elem_of_further|done].
      * injection He as <-. exists (k, c).
        split; [apply list_elem_of_here|].
        by destruct Hr1 as [?|Hn].
    + intros id Hid. cbn [fmap list_fmap fst] in Hid.
      apply not_elem_of_cons in Hid as [Hne Hid].
      rewrite (Hfr2 id Hid). by apply Hfr1.
    + intros Hnd kv Hkv. cbn [fmap list_fmap fst] in Hnd.
      apply NoDup_cons in Hnd as [Hnot Hnd].
      apply elem_of_cons in Hkv as [->|Hkv].
      * unfold cached_under. cbn [fst snd]. rewrite (Hfr2 k Hnot).
        exact Hc1.
      * by apply Hc2.
Qed.

Lemma fetch_energy_turn_respects answer notified :
  respects same_keys not_fetch (fetch_energy_turn answer notified)
  /\ respects same_handles any_event (fetch_energy_turn answer notified).
Proof.
  unfold fetch_energy_turn. split.
  - apply respects_try_except;
      [apply same_keys_trans|apply fetch_energy_consumption_respects|].
    intros e. by apply respects_emit; [apply same_keys_refl|].
  - apply respects_try_except;
      [apply same_handles_trans|apply fetch_energy_consumption_handles|].
    intros e. by apply respects_emit; [apply same_handles_refl|].
Qed.

Lemma fetch_energy_turn_returns answer notified (m : t) :
  (fetch_energy_turn answer notified m).1.1 = Ok tt.
Proof.
  unfold fetch_energy_turn, try_except, emit.
  by destruct (fetch_energy_consumption answer notified m)
    as [[[[]|e] m'] tr].
Qed.

End energy_fetch.

(** X21: when the answer to the energy request names one device that is
    not registered, [fetch_energy_consumption] raises KeyError after the
    request and before any device is touched.  When every device named
    is registered, every update runs, whatever the subscribers of
    another device raise: each device named is left with its reading
    cached; after the request nothing but energy-changed notifications
    is emitted; the identifiers of the registry and the handles of the
    manager are kept; the call returns when no subscriber raises, and
    an exception it raises is one that the subscribers of a device
    named raised. *)
Theorem fetch_energy_consumption_outcomes
    (cs : list (string * properties.ToshibaAcDeviceEnergyConsumption))
    (notified : string -> result unit)
    (m : ToshibaAcDeviceManager.t) :
  present (ToshibaAcDeviceManager.http_api m) = true ->
  let request :=
    HttpGetDevicesEnergyConsumption
      (dict_keys (ToshibaAcDeviceManager.devices m)) in
  ((exists kv, kv ∈ cs
               /\ kv.1 ∉ dict_keys (ToshibaAcDeviceManager.devices m)) ->
   ToshibaAcDeviceManager.fetch_energy_consumption (Ok cs) notified m
   = (Raise KeyError, m, [request]))
  /\ ((forall kv, kv ∈ cs ->
         kv.1 ∈ dict_keys (ToshibaAcDeviceManager.devices m)) ->
      exists r m' tr,
        ToshibaAcDeviceManager.fetch_energy_consumption (Ok cs) notified m
        = (r, m', request :: tr)
        /\ Forall is_energy_changed tr
        /\ same_keys m m' /\ same_handles m m'
        /\ ((forall kv, kv ∈ cs -> notified kv.1 = Ok tt) -> r = Ok tt)
        /\ (forall e, r = Raise e ->
              exists kv, kv ∈ cs /\ notified kv.1 = Raise e)
        /\ (NoDup cs.*1 -> forall kv, kv ∈ cs ->
              exists c, cached_under m' kv.1 = Some c
                        /\ same_reading c kv.2)).
Proof.
  intros Hhttp request.
  assert (ToshibaAcDeviceManager.fetch_energy_consumption (Ok cs) notified m
            = match (if forallb (fun kv =>
                            is_ok (dict_get (ToshibaAcDeviceManager.devices m)
                                            kv.1)) cs
                     then Ok tt else Raise KeyError) with
              | Ok _ =>
                  match
                    ToshibaAcDeviceManager.gather
                      (map (fun kv =>
                              ToshibaAcDeviceManager.on_device kv.1
                                (ToshibaAcDevice.handle_update_ac_energy_consumption
                                   kv.2 (notified kv.1))) cs) m
                  with
                  | (r, m', tr) => (r, m', request :: tr)
                  end
              | Raise e => (Raise e, m, [request])
              end) as Hrun.
  { unfold ToshibaAcDeviceManager.fetch_energy_consumption.
    unfold bind at 1, get at 1. cbv beta iota. rewrite Hhttp.
    unfold bind, emit, lift. rewrite known_check.
    destruct (forallb _ cs); [|done].
    by destruct (ToshibaAcDeviceManager.gather _ m) as [[[r|e] m'] tr]. }
  rewrite Hrun. clear Hrun.
  split.
  - intros (kv & Hkv & Hnot).
    assert (forallb (fun kv0 => is_ok (dict_get (ToshibaAcDeviceManager.devices m)
                                          kv0.1)) cs = false) as ->; [|done].
    apply not_true_is_false. intros Hall.
    rewrite forallb_forall in Hall. apply Hnot, dict_get_keys, Hall.
    by apply list_elem_of_In.
  - intros Hknown.
    assert (forallb (fun kv0 => is_ok (dict_get (ToshibaAcDeviceManager.devices m)
                                          kv0.1)) cs = true) as ->.
    { apply forallb_forall. intros kv Hkv. apply dict_get_keys, Hknown.
      by apply list_elem_of_In. }
    destruct (gather_energy_updates cs notified m Hknown)
      as (r & m' & tr & Hrun & Hkeys & Hh & Htr & Hok & He & _ & Hc).
    rewrite Hrun. by exists r, m', tr.
Qed.

(** X21 on the manager that has listed one device: an answer that names
    another device, and an answer that names the device listed, with
    subscribers that raise. *)
Lemma fetch_energy_consumption_outcomes_witness :
  ToshibaAcDeviceManager.fetch_energy_consumption
    (Ok [("uid-b", reading_a)]) (fun _ => Ok tt) populated_manager
  = (Raise KeyError, populated_manager,
     [HttpGetDevicesEnergyConsumption ["uid-a"]])
  /\ exists m',
       ToshibaAcDeviceManager.fetch_energy_consumption
         (Ok [("uid-a", reading_a)]) (fun _ => Raise ConnectionError)
         populated_manager
       = (Raise ConnectionError, m',
          [HttpGetDevicesEnergyConsumption ["uid-a"]; EnergyChanged "uid-a"])
       /\ exists c, cached_under m' "uid-a" = Some c /\ same_reading c reading_a.
Proof.
  split.
  - apply (proj1 (fetch_energy_consumption_outcomes [("uid-b", reading_a)]
                    (fun _ => Ok tt) populated_manager eq_refl)).
    exists ("uid-b", reading_a). split; [apply list_elem_of_here|].
    vm_compute. intros H.
    apply elem_of_cons in H as [H|H]; [discriminate H|].
    by apply elem_of_nil in H.
  - destruct (proj2 (fetch_energy_consumption_outcomes [("uid-a", reading_a)]
                       (fun _ => Raise ConnectionError) populated_manager
                       eq_refl))
      as (r & m' & tr & Hrun & _ & _ & _ & _ & _ & Hc).
    { intros kv Hkv. apply list_elem_of_singleton in Hkv as ->.
      vm_compute. apply list_elem_of_here. }
    exists m'.
    assert (ToshibaAcDeviceManager.fetch_energy_consumption
              (Ok [("uid-a", reading_a)]) (fun _ => Raise ConnectionError)
              populated_manager
            = (Raise ConnectionError,
               (ToshibaAcDeviceManager.fetch_energy_consumption
                  (Ok [("uid-a", reading_a)]) (fun _ => Raise ConnectionError)
                  populated_manager).1.2,
               [HttpGetDevicesEnergyConsumption ["uid-a"];
                EnergyChanged "uid-a"])) as Hval by (by vm_compute).
    rewrite Hrun in Hval. cbn [fst snd] in Hval.
    split; [by rewrite Hrun|].
    apply (Hc ltac:(repeat constructor; set_solver) ("uid-a", reading_a)).
    apply list_elem_of_here.
Defined.

(** X22: the loop that fetches the energy readings never raises and
    skips no turn, whatever the request channel answers and whatever
    the subscribers do; it never asks for the listing and keeps the
    identifiers of the registry and the handles of the manager. *)
Theorem periodic_energy_fetch_keeps_going
    (answers : list (result (list (string * properties.ToshibaAcDeviceEnergyConsumption))
                     * (string -> result unit)))
    (m : ToshibaAcDeviceManager.t) :
  exists m' tr,
    ToshibaAcDeviceManager.periodic_fetch_energy_consumption answers m
    = (Ok tt, m', tr)
    /\ same_keys m m' /\ same_handles m m'
    /\ listing_fetches tr = 0%nat.
Proof.
  revert m. induction answers as [|[answer notified] r IH]; intros m.
  - exists m, []. by repeat split.
  - cbn [ToshibaAcDeviceManager.periodic_fetch_energy_consumption fst snd].
    unfold bind.
    pose proof (fetch_energy_turn_returns answer notified m) as Hok.
    destruct (fetch_energy_turn_respects answer notified) as [Hk Hh].
    specialize (Hk m). specialize (Hh m).
    destruct (ToshibaAcDeviceManager.fetch_energy_turn answer notified m)
      as [[r1 m1] tr1]. simpl in Hok, Hk, Hh. subst r1.
    destruct (IH m1) as (m2 & tr2 & -> & Hk2 & Hh2 & Hq2).
    exists m2, (tr1 ++ tr2)%list. split; [done|].
    destruct Hk as [Hk Hq1], Hh as [Hh _].
    split; [unfold same_keys in *; congruence|].
    split; [by eapply same_handles_trans|].
    by rewrite listing_fetches_app, (listing_fetches_quiet tr1), Hq2.
Qed.
